(** * M5wire: register transport and the 8angle / 8encoder drivers

    A shallow embedding of [src/M5wire.h] and [src/M5wire.cpp].

    The drivers talk to the outside world only through the Arduino
    [TwoWire] interface and the clock ([micros], [delayMicroseconds],
    [delay]).  Every such call is an explicit [Call]; the environment
    answers it through a handler [env], and the driver records the call
    and its answer in a trace.  The results therefore hold for every
    environment; a simulated bus with one register-file target serves to
    run the code on concrete inputs. *)

From Stdlib Require Import ZArith Lia.
From stdpp Require Import base option list numbers.

Open Scope Z_scope.

(** ** Fixed-width integers *)

Definition u8 (z : Z) : Z := z mod 256.
Definition u16 (z : Z) : Z := z mod 65536.
Definition u32 (z : Z) : Z := z mod 4294967296.
(** Conversion of a 32-bit pattern to [int32_t] (two's complement). *)
Definition s32 (z : Z) : Z := (z + 2147483648) mod 4294967296 - 2147483648.

(** Little-endian byte image of an integer object, as seen through a
    [(uint8_t* ) &x] cast on the little-endian targets of the library. *)
Fixpoint le_bytes (n : nat) (z : Z) : list Z :=
  match n with
  | O => []
  | S n' => z mod 256 :: le_bytes n' (z / 256)
  end.

Fixpoint le_val (bs : list Z) : Z :=
  match bs with
  | [] => 0
  | b :: bs' => b + 256 * le_val bs'
  end.

(** ** The bus and clock interface *)

(** The bus objects a unit can be constructed on; [Wire] is the global
    default object. *)
Inductive TwoWire := Wire | Wire1 | Wire2.

#[global] Instance TwoWire_eq_dec : EqDecision TwoWire.
Proof. solve_decision. Defined.

Inductive Call :=
| WireBegin (w : TwoWire)
| BeginTransmission (w : TwoWire) (address : Z)
| WireWrite (w : TwoWire) (b : Z)
| WireWriteBuf (w : TwoWire) (data : list Z)
| EndTransmission (w : TwoWire)
| RequestFrom (w : TwoWire) (address quantity : Z)
| WireRead (w : TwoWire)
| Micros
| DelayMicroseconds (us : Z)
| Delay (ms : Z).

(** A call together with the value the environment returned. *)
Definition Event : Type := Call * Z.

Definition is_bus (c : Call) : bool :=
  match c with
  | Micros | DelayMicroseconds _ | Delay _ => false
  | _ => true
  end.

(** The bus calls of a trace, in order, without the answers. *)
Fixpoint bus_calls (evs : list Event) : list Call :=
  match evs with
  | [] => []
  | (c, _) :: evs' => if is_bus c then c :: bus_calls evs' else bus_calls evs'
  end.

(** The environment: an arbitrary deterministic handler over its own state. *)
Definition Env (S : Type) : Type := Call -> S -> Z * S.

Record World (S : Type) := mkWorld { dev : S; trace : list Event }.
Arguments mkWorld {S} _ _.
Arguments dev {S} _.
Arguments trace {S} _.

(** ** The driver monad

    State [St] of the object, the world, and [None] for undefined
    behaviour (an access outside an array) or exhausted loop fuel. *)

Definition Drv (S St A : Type) : Type := St -> World S -> option (A * St * World S).

Definition pure {S St A} (a : A) : Drv S St A := fun st w => Some (a, st, w).

Definition bind {S St A B} (m : Drv S St A) (k : A -> Drv S St B) : Drv S St B :=
  fun st w =>
    match m st w with
    | Some (a, st', w') => k a st' w'
    | None => None
    end.

Definition undefined {S St A} : Drv S St A := fun _ _ => None.
Definition get {S St} : Drv S St St := fun st w => Some (st, st, w).
Definition put {S St} (st : St) : Drv S St unit := fun _ w => Some (tt, st, w).
Definition modify {S St} (f : St -> St) : Drv S St unit := fun st w => Some (tt, f st, w).

(** Run a method of a base-class subobject inside the derived object. *)
Definition lift {S St Sub A} (proj : St -> Sub) (upd : Sub -> St -> St)
    (m : Drv S Sub A) : Drv S St A :=
  fun st w =>
    match m (proj st) w with
    | Some (a, sub', w') => Some (a, upd sub' st, w')
    | None => None
    end.

Declare Scope drv_scope.
Delimit Scope drv_scope with drv.
Notation "x <- c1 ;; c2" := (bind c1 (fun x => c2))
  (at level 100, c1 at next level, right associativity) : drv_scope.
Notation "c1 ;; c2" := (bind c1 (fun _ => c2))
  (at level 100, right associativity) : drv_scope.
Open Scope drv_scope.

(** One call to the environment, recorded in the trace. *)
Definition call {S St} (env : Env S) (c : Call) : Drv S St Z :=
  fun st w =>
    let '(r, d') := env c (dev w) in
    Some (r, st, mkWorld d' (trace w ++ [(c, r)])).

(** ** [class M5w_Unit] *)

Module M5w_Unit.

Record t := mk {
  addr : Z;            (* uint8_t *)
  wire : TwoWire;      (* TwoWire& *)
  error : Z;           (* uint8_t *)
  endError : Z;        (* uint8_t *)
  lastLEDtime : Z;     (* uint32_t *)
  LEDdelay : Z         (* uint32_t *)
}.

(** The constructor leaves [lastLEDtime] uninitialised; [junk] is
    whatever the member holds. *)
Definition new (ad : Z) (w : TwoWire) (junk : Z) : t :=
  mk ad w 0 0 junk 80.

Definition set_addr (v : Z) (u : t) : t :=
  mk v (wire u) (error u) (endError u) (lastLEDtime u) (LEDdelay u).
Definition set_error (v : Z) (u : t) : t :=
  mk (addr u) (wire u) v (endError u) (lastLEDtime u) (LEDdelay u).
Definition set_endError (v : Z) (u : t) : t :=
  mk (addr u) (wire u) (error u) v (lastLEDtime u) (LEDdelay u).
Definition set_lastLEDtime (v : Z) (u : t) : t :=
  mk (addr u) (wire u) (error u) (endError u) v (LEDdelay u).

Section Ops.
Context {S : Type} (env : Env S).

(** The bit pattern found in storage that is read before it was written
    (an uninitialised local). *)
Variable indet : Z.

Local Abbreviation M := (Drv S t).

(** The library functions, with the width of their C++ return type. *)
Definition micros : M Z := r <- call env Micros ;; pure (u32 r).
Definition delayMicroseconds (us : Z) : M unit :=
  call env (DelayMicroseconds us) ;; pure tt.
Definition delay (ms : Z) : M unit := call env (Delay ms) ;; pure tt.
Definition wire_begin (w : TwoWire) : M unit := call env (WireBegin w) ;; pure tt.
Definition beginTransmission (w : TwoWire) (a : Z) : M unit :=
  call env (BeginTransmission w a) ;; pure tt.
(** [write(uint8_t)]; [readBytes] calls it by its older name [send]. *)
Definition wire_write (w : TwoWire) (b : Z) : M unit :=
  call env (WireWrite w b) ;; pure tt.
Definition wire_write_buf (w : TwoWire) (data : list Z) : M unit :=
  call env (WireWriteBuf w data) ;; pure tt.
Definition endTransmission (w : TwoWire) : M Z :=
  r <- call env (EndTransmission w) ;; pure (u8 r).
Definition requestFrom (w : TwoWire) (a n : Z) : M Z :=
  r <- call env (RequestFrom w a n) ;; pure (u8 r).
Definition wire_read (w : TwoWire) : M Z := call env (WireRead w).

(** [void M5w_Unit::begin()] *)
Definition begin : M unit :=
  u <- get ;;
  wire_begin (wire u) ;;
  delay 10 ;;
  beginTransmission (wire u) (addr u) ;;
  e <- endTransmission (wire u) ;;
  modify (set_error e).

(** [explicit operator bool()] *)
Definition to_bool (u : t) : bool := error u =? 0.

(** [void M5w_Unit::addDelayIfNeeded(void)] *)
Definition addDelayIfNeeded : M unit :=
  now <- micros ;;
  u <- get ;;
  if u32 (now - lastLEDtime u) <? LEDdelay u
  then delayMicroseconds (u32 (LEDdelay u - u32 (now - lastLEDtime u)))
  else pure tt.

(** The loop [for (int i=0;i<n;i++) value[i] = Wire.read();] from
    index [i], with [k] iterations left.  The bytes come from the global
    object [Wire], as in the source; a store outside [value] is
    undefined. *)
Fixpoint read_loop (k : nat) (i : nat) (value : list Z) : M (list Z) :=
  match k with
  | O => pure value
  | Datatypes.S k' =>
      r <- wire_read Wire ;;
      if (i <? length value)%nat
      then read_loop k' (Datatypes.S i) (<[i := u8 r]> value)
      else undefined
  end.

(** [uint8_t M5w_Unit::readBytes(uint8_t reg, uint8_t* value, uint8_t n)];
    the buffer is passed in and handed back with the status. *)
Definition readBytes (reg : Z) (value : list Z) (n : Z) : M (Z * list Z) :=
  addDelayIfNeeded ;;
  u <- get ;;
  beginTransmission (wire u) (addr u) ;;
  wire_write (wire u) reg ;;
  e <- endTransmission (wire u) ;;
  modify (set_endError e) ;;
  if e =? 0 then
    k <- requestFrom (wire u) (addr u) n ;;
    if negb (k =? 0) then
      value' <- read_loop (Z.to_nat n) 0 value ;;
      pure (e, value')
    else
      modify (set_endError 10) ;;
      pure (10, value)
  else
    modify (set_endError (u8 (e + 100))) ;;
    pure (u8 (e + 100), value).

(** [uint8_t M5w_Unit::getByte(uint8_t reg)]; the local [ret] starts
    uninitialised. *)
Definition getByte (reg : Z) : M Z :=
  r <- readBytes reg (le_bytes 1 indet) 1 ;;
  if negb (r.1 =? 0) then pure 170 else pure (le_val r.2).

(** [int32_t M5w_Unit::getLong(uint8_t reg)] *)
Definition getLong (reg : Z) : M Z :=
  r <- readBytes reg (le_bytes 4 indet) 4 ;;
  if negb (r.1 =? 0) then pure (s32 3735928559) else pure (s32 (le_val r.2)).

(** [void M5w_Unit::writeBytes(uint8_t reg, uint8_t* value, uint8_t n)] *)
Definition writeBytes (reg : Z) (value : list Z) (n : Z) : M unit :=
  addDelayIfNeeded ;;
  u <- get ;;
  beginTransmission (wire u) (addr u) ;;
  wire_write (wire u) reg ;;
  (if (Z.to_nat n <=? length value)%nat
   then wire_write_buf (wire u) (take (Z.to_nat n) value)
   else undefined) ;;
  e <- endTransmission (wire u) ;;
  modify (set_endError e).

Definition getVersion : M Z := getByte 254.

(** [void setAddress(uint8_t newAddr)] *)
Definition setAddress (newAddr : Z) : M unit :=
  writeBytes 255 [newAddr] 1 ;;
  modify (set_addr newAddr).

End Ops.
End M5w_Unit.

(** ** [class M5w_8angle : public M5w_Unit] *)

Module M5w_8angle.

(** [enum {unhooked,under,over,hooking}] *)
Inductive hook := unhooked | under | over | hooking.

#[global] Instance hook_eq_dec : EqDecision hook.
Proof. solve_decision. Defined.

Definition POT_COUNT : nat := 8.
Definition POTMAX : Z := 4092.   (* 0xFFC *)

Record t := mk {
  unit : M5w_Unit.t;
  potValues : list Z;     (* uint16_t potValues[POT_COUNT] *)
  hooks : list hook       (* hooks[POT_COUNT] *)
}.

Definition new (ad : Z) (w : TwoWire) (junk : Z) : t :=
  mk (M5w_Unit.new ad w junk) (replicate POT_COUNT 0) (replicate POT_COUNT unhooked).

(** Both arrays have their declared size. *)
Definition wf (a : t) : Prop :=
  length (potValues a) = POT_COUNT /\ length (hooks a) = POT_COUNT.

Section Ops.
Context {S : Type} (env : Env S) (indet : Z).

Local Abbreviation M := (Drv S t).

Definition base {A} (m : Drv S M5w_Unit.t A) : M A :=
  lift unit (fun u a => mk u (potValues a) (hooks a)) m.

(** Array accesses; an index outside the array is undefined. *)
Definition pot_get (ch : Z) : M Z :=
  fun a w =>
    if 0 <=? ch then
      match potValues a !! Z.to_nat ch with
      | Some v => Some (v, a, w)
      | None => None
      end
    else None.

Definition pot_set (ch v : Z) : M Datatypes.unit :=
  fun a w =>
    if (0 <=? ch) && (Z.to_nat ch <? length (potValues a))%nat
    then Some (tt, mk (unit a) (<[Z.to_nat ch := v]> (potValues a)) (hooks a), w)
    else None.

Definition hook_get (ch : Z) : M hook :=
  fun a w =>
    if 0 <=? ch then
      match hooks a !! Z.to_nat ch with
      | Some h => Some (h, a, w)
      | None => None
      end
    else None.

Definition hook_set (ch : Z) (h : hook) : M Datatypes.unit :=
  fun a w =>
    if (0 <=? ch) && (Z.to_nat ch <? length (hooks a))%nat
    then Some (tt, mk (unit a) (potValues a) (<[Z.to_nat ch := h]> (hooks a)), w)
    else None.

(** [uint16_t M5w_8angle::getPot16(uint8_t ch)] *)
Definition getPot16 (ch : Z) : M Z :=
  value <- pot_get ch ;;
  r <- base (M5w_Unit.readBytes env (u8 (0 + ch * 2)) (le_bytes 2 value) 2) ;;
  (if r.1 =? 0 then
     let value := le_val r.2 in
     let value := if value >? POTMAX then 0 else u16 (POTMAX - value) in
     h <- hook_get ch ;;
     match h with
     | unhooked => pot_set ch value
     | hooking =>
         cur <- pot_get ch ;;
         if value <? cur then hook_set ch under
         else if value >? cur then hook_set ch over
         else (hook_set ch unhooked ;; pot_set ch value)
     | under =>
         cur <- pot_get ch ;;
         if value >=? cur then (hook_set ch unhooked ;; pot_set ch value)
         else pure tt
     | over =>
         cur <- pot_get ch ;;
         if value <=? cur then (hook_set ch unhooked ;; pot_set ch value)
         else pure tt
     end
   else pure tt) ;;
  pot_get ch.

(** [uint16_t getLast(uint8_t ch)] *)
Definition getLast (ch : Z) : M Z := pot_get ch.

(** [void M5w_8angle::setHook(uint8_t ch, uint16_t value)] *)
Definition setHook (ch value : Z) : M Datatypes.unit :=
  hook_set ch hooking ;;
  pot_set ch value.

(** [bool isHooking(uint8_t ch)] *)
Definition isHooking (ch : Z) : M bool :=
  h <- hook_get ch ;;
  pure (match h with unhooked => false | _ => true end).

(** [void clearHook(uint8_t ch)] *)
Definition clearHook (ch : Z) : M Datatypes.unit := hook_set ch unhooked.

(** [uint8_t M5w_8angle::getSwitch(void)] *)
Definition getSwitch : M Z := base (M5w_Unit.getByte env indet 32).

(** [void M5w_8angle::writeLED(uint8_t led, uint32_t colour)] *)
Definition writeLED (led colour : Z) : M Datatypes.unit :=
  base (M5w_Unit.writeBytes env (u8 (led * 4 + 48)) (le_bytes 4 colour) 4) ;;
  now <- base (M5w_Unit.micros env) ;;
  base (modify (M5w_Unit.set_lastLEDtime now)).

End Ops.
End M5w_8angle.

(** ** [class M5w_8encoder : public M5w_Unit] *)

Module M5w_8encoder.

Record t := mk {
  unit : M5w_Unit.t;
  encValues : list Z      (* int32_t encValues[8] *)
}.

Definition new (ad : Z) (w : TwoWire) (junk : Z) : t :=
  mk (M5w_Unit.new ad w junk) (replicate 8 0).

Section Ops.
Context {S : Type} (env : Env S) (indet : Z).

Local Abbreviation M := (Drv S t).

Definition base {A} (m : Drv S M5w_Unit.t A) : M A :=
  lift unit (fun u e => mk u (encValues e)) m.

(** [setCount] is declared in the header and defined nowhere. *)

(** [int32_t M5w_8encoder::getCount(uint8_t ch)] *)
Definition getCount (ch : Z) : M Z :=
  base (M5w_Unit.getLong env indet (u8 (0 + 4 * ch))).

(** The loop [while (0 == (mask & 1)) { mask >>= 1; reg++; }]. *)
Fixpoint find_start (fuel : nat) (mask reg : Z) : option (Z * Z) :=
  match fuel with
  | O => None
  | Datatypes.S fuel' =>
      if Z.land mask 1 =? 0
      then find_start fuel' (Z.shiftr mask 1) (u8 (reg + 1))
      else Some (mask, reg)
  end.

(** The loop [while (0 != mask) { chList[len] = (mask & 1) ?1:0; len++;
    mask >>= 1; }]; a store outside [chList] is undefined. *)
Fixpoint set_flags (fuel : nat) (mask : Z) (chList : list Z) (len : Z)
    : option (list Z * Z) :=
  match fuel with
  | O => None
  | Datatypes.S fuel' =>
      if negb (mask =? 0) then
        if (Z.to_nat len <? length chList)%nat
        then set_flags fuel' (Z.shiftr mask 1)
               (<[Z.to_nat len := if negb (Z.land mask 1 =? 0) then 1 else 0]> chList)
               (u8 (len + 1))
        else None
      else Some (chList, len)
  end.

(** [void M5w_8encoder::resetCounts(uint8_t mask)]; [chList] starts
    uninitialised, its first [len] bytes are written before they are
    sent. *)
Definition resetCounts (fuel : nat) (mask : Z) : M Datatypes.unit :=
  let chList := replicate 8 (u8 indet) in
  let reg := 64 in
  let len := 0 in
  if negb (mask =? 0) then
    match find_start fuel mask reg with
    | Some (mask, reg) =>
        match set_flags fuel mask chList len with
        | Some (chList, len) => base (M5w_Unit.writeBytes env reg chList len)
        | None => undefined
        end
    | None => undefined
    end
  else pure tt.

(** [void M5w_8encoder::resetCount(int8_t ch)]: [1<<ch] is a shift of
    a 32-bit [int], undefined for a negative count or one of 32 and more,
    converted to [uint8_t]. *)
Definition resetCount (fuel : nat) (ch : Z) : M Datatypes.unit :=
  if (0 <=? ch) && (ch <? 32) then resetCounts fuel (u8 (Z.shiftl 1 ch))
  else undefined.

(** [int32_t M5w_8encoder::getIncrement(uint8_t ch)] *)
Definition getIncrement (ch : Z) : M Z :=
  base (M5w_Unit.getLong env indet (u8 (32 + 4 * ch))).

(** The loop [for (int i=7;i>=0;i--) ret = (ret << 1) |
    ((getByte(0x50 + ch) == 0) ?1:0);] with [k = i+1] iterations left. *)
Fixpoint button_loop (k : nat) (ch ret : Z) : M Z :=
  match k with
  | O => pure ret
  | Datatypes.S k' =>
      b <- base (M5w_Unit.getByte env indet (u8 (80 + ch))) ;;
      button_loop k' ch (u8 (Z.lor (Z.shiftl ret 1) (if b =? 0 then 1 else 0)))
  end.

(** [uint8_t M5w_8encoder::getButton(int8_t ch)] *)
Definition getButton (ch : Z) : M Z :=
  let ret := 0 in
  if ch >=? 0 then
    b <- base (M5w_Unit.getByte env indet (u8 (80 + ch))) ;;
    pure (if b =? 0 then 1 else 0)
  else
    button_loop 8 ch ret.

(** [uint8_t getButtons(void)] *)
Definition getButtons : M Z := getButton (-1).

(** [void M5w_8encoder::writeLED(uint8_t led, uint32_t colour)] *)
Definition writeLED (led colour : Z) : M Datatypes.unit :=
  base (M5w_Unit.writeBytes env (u8 (led * 3 + 112)) (le_bytes 4 colour) 3) ;;
  now <- base (M5w_Unit.micros env) ;;
  base (modify (M5w_Unit.set_lastLEDtime now)).

(** [uint8_t M5w_8encoder::getSwitch(void)] *)
Definition getSwitch : M Z := base (M5w_Unit.getByte env indet 96).

End Ops.
End M5w_8encoder.

(** ** A simulated bus with one register-file target

    Used to run the drivers: the model of the Wire objects' transmit and
    receive buffers, a clock, and one target that acknowledges its
    address, keeps a register pointer, stores written bytes, and takes a
    byte written to register 0xFF as its new bus address. *)

Module Sim.

(** One value per bus object. *)
Record per (A : Type) := Per { on_Wire : A; on_Wire1 : A; on_Wire2 : A }.
Arguments Per {A} _ _ _.
Arguments on_Wire {A} _.
Arguments on_Wire1 {A} _.
Arguments on_Wire2 {A} _.

Definition sel {A} (p : per A) (h : TwoWire) : A :=
  match h with
  | Wire => on_Wire p
  | Wire1 => on_Wire1 p
  | Wire2 => on_Wire2 p
  end.

Definition upd {A} (p : per A) (h : TwoWire) (v : A) : per A :=
  match h with
  | Wire => Per v (on_Wire1 p) (on_Wire2 p)
  | Wire1 => Per (on_Wire p) v (on_Wire2 p)
  | Wire2 => Per (on_Wire p) (on_Wire1 p) v
  end.

Definition same_bus (h h' : TwoWire) : bool :=
  match h, h' with
  | Wire, Wire | Wire1, Wire1 | Wire2, Wire2 => true
  | _, _ => false
  end.

Record t := mk {
  clock : Z;
  tx_addr : per Z;              (* address of the open transmission *)
  tx_buf : per (list Z);        (* bytes queued for transmission *)
  rx_buf : per (list Z);        (* bytes received and not yet read *)
  d_bus : TwoWire;              (* the bus the target sits on *)
  d_addr : Z;                   (* its address *)
  d_ptr : Z;                    (* its register pointer *)
  d_regs : Z -> Z               (* its registers *)
}.

Definition poke (regs : Z -> Z) (r v : Z) : Z -> Z :=
  fun r' => if r' =? r then v else regs r'.

(** Microseconds one byte takes on a 100 kHz bus. *)
Definition byte_time : Z := 90.

Definition present (s : t) (h : TwoWire) (a : Z) : bool :=
  same_bus h (d_bus s) && (a mod 128 =? d_addr s mod 128).

(** Store [data] at consecutive registers from [r]. *)
Fixpoint store (data : list Z) (r : Z) (regs : Z -> Z) (a : Z) : (Z -> Z) * Z :=
  match data with
  | [] => (regs, a)
  | b :: data' =>
      store data' ((r + 1) mod 256) (poke regs r b) (if r =? 255 then b else a)
  end.

Definition fetch (regs : Z -> Z) (r : Z) (n : nat) : list Z :=
  map (fun i => regs ((r + Z.of_nat i) mod 256)) (seq 0 n).

Definition tick (d : Z) (s : t) : t :=
  mk (clock s + d) (tx_addr s) (tx_buf s) (rx_buf s)
     (d_bus s) (d_addr s) (d_ptr s) (d_regs s).

Definition handler : Env t := fun c s =>
  match c with
  | WireBegin _ => (0, s)
  | BeginTransmission h a =>
      (0, mk (clock s) (upd (tx_addr s) h a) (upd (tx_buf s) h []) (rx_buf s)
             (d_bus s) (d_addr s) (d_ptr s) (d_regs s))
  | WireWrite h b =>
      (1, mk (clock s) (tx_addr s) (upd (tx_buf s) h (sel (tx_buf s) h ++ [b]))
             (rx_buf s) (d_bus s) (d_addr s) (d_ptr s) (d_regs s))
  | WireWriteBuf h data =>
      (Z.of_nat (length data),
       mk (clock s) (tx_addr s) (upd (tx_buf s) h (sel (tx_buf s) h ++ data))
          (rx_buf s) (d_bus s) (d_addr s) (d_ptr s) (d_regs s))
  | EndTransmission h =>
      let s := tick (byte_time * (1 + Z.of_nat (length (sel (tx_buf s) h)))) s in
      if present s h (sel (tx_addr s) h) then
        match sel (tx_buf s) h with
        | [] => (0, s)
        | r :: data =>
            let '(regs, a) := store data r (d_regs s) (d_addr s) in
            (0, mk (clock s) (tx_addr s) (tx_buf s) (rx_buf s)
                   (d_bus s) a r regs)
        end
      else (2, s)
  | RequestFrom h a n =>
      let s := tick (byte_time * (1 + n)) s in
      if present s h a then
        (n, mk (clock s) (tx_addr s) (tx_buf s)
               (upd (rx_buf s) h (fetch (d_regs s) (d_ptr s) (Z.to_nat n)))
               (d_bus s) (d_addr s) (d_ptr s) (d_regs s))
      else
        (0, mk (clock s) (tx_addr s) (tx_buf s) (upd (rx_buf s) h [])
               (d_bus s) (d_addr s) (d_ptr s) (d_regs s))
  | WireRead h =>
      match sel (rx_buf s) h with
      | [] => (-1, s)
      | b :: rest =>
          (b, mk (clock s) (tx_addr s) (tx_buf s) (upd (rx_buf s) h rest)
                 (d_bus s) (d_addr s) (d_ptr s) (d_regs s))
      end
  | Micros => (clock s mod 4294967296, s)
  | DelayMicroseconds us => (0, tick us s)
  | Delay ms => (0, tick (1000 * ms) s)
  end.

(** A target on bus [h] at address [a] whose registers read [regs]. *)
Definition init (h : TwoWire) (a : Z) (regs : Z -> Z) : t :=
  mk 1000 (Per 0 0 0) (Per [] [] []) (Per [] [] []) h a 0 regs.

Definition world (s : t) : World t := mkWorld s [].

(** Registers given as an association list, 0 elsewhere. *)
Fixpoint regs_of (l : list (Z * Z)) : Z -> Z :=
  match l with
  | [] => fun _ => 0
  | (r, v) :: l' => poke (regs_of l') r v
  end.

End Sim.

(** What a run returned, and the events it added. *)
Definition result {S St A} (o : option (A * St * World S)) : option A :=
  match o with Some (a, _, _) => Some a | None => None end.
Definition final {S St A} (o : option (A * St * World S)) : option St :=
  match o with Some (_, st, _) => Some st | None => None end.
Definition events {S St A} (o : option (A * St * World S)) : list Event :=
  match o with Some (_, _, w) => trace w | None => [] end.

(** ** Vocabulary for traces of the register transport *)

Module Obs.
Import M5w_Unit.

(** Elapsed time since the last LED write as [addDelayIfNeeded] computes
    it from the value [now] that [micros] returned. *)
Definition elapsed (u : t) (now : Z) : Z := u32 (u32 now - lastLEDtime u).

(** The events of the LED delay gate: the clock is read, and the caller
    is delayed for the remainder when too little time has passed. *)
Definition gate (u : t) (now r : Z) : list Event :=
  (Micros, now) ::
  (if elapsed u now <? LEDdelay u
   then [(DelayMicroseconds (u32 (LEDdelay u - elapsed u now)), r)]
   else []).

(** The framed write of the register address. *)
Definition address_frame (u : t) (reg rb rw re : Z) : list Event :=
  [(BeginTransmission (wire u) (addr u), rb);
   (WireWrite (wire u) reg, rw);
   (EndTransmission (wire u), re)].

Definition reads (rs : list Z) : list Event := map (fun r => (WireRead Wire, r)) rs.

(** What one [readBytes] call did, by the answers of the bus. *)
Inductive read_outcome (u : t) (reg n : Z) (value : list Z)
    : Z * list Z -> t -> list Event -> Prop :=
| read_nack rb rw re :
    u8 re <> 0 ->
    read_outcome u reg n value
      (u8 (u8 re + 100), value)
      (set_endError (u8 (u8 re + 100)) u)
      (address_frame u reg rb rw re)
| read_refused rb rw re rq :
    u8 re = 0 -> u8 rq = 0 ->
    read_outcome u reg n value
      (10, value)
      (set_endError 10 u)
      (address_frame u reg rb rw re ++ [(RequestFrom (wire u) (addr u) n, rq)])
| read_ok rb rw re rq rs :
    u8 re = 0 -> u8 rq <> 0 -> length rs = Z.to_nat n ->
    read_outcome u reg n value
      (0, map u8 rs ++ drop (Z.to_nat n) value)
      (set_endError 0 u)
      (address_frame u reg rb rw re ++
       (RequestFrom (wire u) (addr u) n, rq) :: reads rs).

(** The events of one register read: the delay gate, then the framed
    write of the register address, then only bus calls. *)
Definition gated_read (u : t) (reg : Z) (seg : list Event) : Prop :=
  exists now r rb rw re tail,
    seg = gate u now r ++ address_frame u reg rb rw re ++ tail /\
    Forall (fun ev => is_bus ev.1 = true) tail.

(** The members that address the target and drive the gate. *)
Definition same_target (u u' : t) : Prop :=
  addr u' = addr u /\ wire u' = wire u /\
  lastLEDtime u' = lastLEDtime u /\ LEDdelay u' = LEDdelay u.

(** [new] extends [old] by one or more register reads, each behind the
    gate of [u]. *)
Definition gated_reads (u : t) (old new : list Event) : Prop :=
  exists segs,
    new = old ++ concat segs /\
    segs <> [] /\
    Forall (fun seg => exists reg, gated_read u reg seg) segs.

(** The events of one LED write: the gate, the framed write of [n] colour
    bytes at [reg], and the clock read that stamps [lastLEDtime]. *)
Definition led_write (u : t) (reg : Z) (payload : list Z)
    (now r rb rw rv re stamp : Z) : list Event :=
  gate u now r ++
  [(BeginTransmission (wire u) (addr u), rb);
   (WireWrite (wire u) reg, rw);
   (WireWriteBuf (wire u) payload, rv);
   (EndTransmission (wire u), re);
   (Micros, stamp)].

End Obs.

(** ** The hook filter as the specification tabulates it *)

Module HookTable.
Import M5w_8angle.

(** The inversion of the raw register value. *)
Definition decode (raw : Z) : Z := if raw >? POTMAX then 0 else POTMAX - raw.

(** One row of the table: for the state, the new value [v] and the stored
    value [s], the next state and whether [v] is accepted (stored). *)
Definition hook_rule (h : hook) (v s : Z) : hook * bool :=
  match h with
  | unhooked => (unhooked, true)
  | hooking =>
      if v <? s then (under, false)
      else if v >? s then (over, false)
      else (unhooked, true)
  | under => if v >=? s then (unhooked, true) else (under, false)
  | over => if v <=? s then (unhooked, true) else (over, false)
  end.

(** State and stored value after a successful read of [v]. *)
Definition after_read (h : hook) (v s : Z) : hook * Z :=
  ((hook_rule h v s).1, if (hook_rule h v s).2 then v else s).

(** Hook state and stored value of a channel. *)
Definition channel (a : t) (ch : Z) : option (hook * Z) :=
  match hooks a !! Z.to_nat ch, potValues a !! Z.to_nat ch with
  | Some h, Some s => Some (h, s)
  | _, _ => None
  end.

End HookTable.

(** ** The reset frame as the specification describes it *)

Module ResetFrame.

(** Number of trailing zero bits of a positive number. *)
Fixpoint ctz_pos (p : positive) : Z :=
  match p with
  | xO q => 1 + ctz_pos q
  | _ => 0
  end.

Definition trailing_zeros (mask : Z) : Z :=
  match mask with
  | Zpos p => ctz_pos p
  | _ => 0
  end.

(** One byte per bit position from the lowest set bit through the highest
    set bit, 1 if the bit is set and 0 otherwise. *)
Definition flag_bytes (mask : Z) : list Z :=
  let lo := trailing_zeros mask in
  let hi := Z.log2 mask in
  map (fun i => Z.b2z (Z.testbit mask i)) (seqZ lo (hi - lo + 1)).

(** The binary digits of a positive number, least significant first. *)
Fixpoint bits_pos (p : positive) : list Z :=
  match p with
  | xH => [1]
  | xO q => 0 :: bits_pos q
  | xI q => 1 :: bits_pos q
  end.

(** A positive number without its trailing zero bits. *)
Fixpoint strip (p : positive) : positive :=
  match p with
  | xO q => strip q
  | _ => p
  end.

(** The bus calls of one framed write of [payload] at register [reg]. *)
Definition write_frame (u : M5w_Unit.t) (reg : Z) (payload : list Z) : list Call :=
  [BeginTransmission (M5w_Unit.wire u) (M5w_Unit.addr u);
   WireWrite (M5w_Unit.wire u) reg;
   WireWriteBuf (M5w_Unit.wire u) payload;
   EndTransmission (M5w_Unit.wire u)].

End ResetFrame.

(** ** Concrete environments and objects used to run the code *)

Module Fixture.

(** A bus whose [endTransmission] answers the status byte [code] and
    which otherwise answers 0. *)
Definition failing (code : Z) : Env Datatypes.unit := fun c s =>
  (match c with EndTransmission _ => code | _ => 0 end, s).

Definition nowhere : World Datatypes.unit := mkWorld tt [].

(** An angle unit at its default address on the default bus; channel 3
    reads the raw value 0x0100. *)
Definition angle : M5w_8angle.t := M5w_8angle.new 67 Wire 0.
Definition angle_bus : World Sim.t :=
  Sim.world (Sim.init Wire 67 (Sim.regs_of [(6, 0); (7, 1)])).

(** The same unit after [setHook(3, 2000)]. *)
Definition angle_hooked : M5w_8angle.t :=
  M5w_8angle.mk (M5w_8angle.unit angle)
    (<[3%nat := 2000]> (M5w_8angle.potValues angle))
    (<[3%nat := M5w_8angle.hooking]> (M5w_8angle.hooks angle)).

(** An encoder unit at its default address; button 0 is pressed (its
    register reads 0), the other buttons and register 0x4F read 1. *)
Definition encoder : M5w_8encoder.t := M5w_8encoder.new 65 Wire 0.
Definition encoder_bus : World Sim.t :=
  Sim.world (Sim.init Wire 65
    (Sim.regs_of [(79, 1); (80, 0); (81, 1); (82, 1); (83, 1);
                  (84, 1); (85, 1); (86, 1); (87, 1)])).

(** A unit constructed on the second bus object, and its target. *)
Definition unit1 : M5w_Unit.t := M5w_Unit.new 65 Wire1 0.
Definition bus1 : World Sim.t :=
  Sim.world (Sim.init Wire1 65 (Sim.regs_of [(0, 17); (1, 34)])).

End Fixture.

(** ** Sequences of potentiometer reads *)

Module Polling.
Import M5w_8angle HookTable.

(** The register read of the next [getPot16 ch] call on a channel whose
    stored value is [s] either fails or decodes to a value on one side of
    [s]: below it for [below = true], above it otherwise. *)
Definition quiet {S} (env : Env S) (ch s : Z) (below : bool) (a : t)
    (w : World S) : Prop :=
  exists st buf u' w',
    M5w_Unit.readBytes env (u8 (0 + ch * 2)) (le_bytes 2 s) 2 (unit a) w
      = Some ((st, buf), u', w') /\
    (st <> 0 \/
     if below then decode (le_val buf) < s else decode (le_val buf) > s).

(** Consecutive [getPot16 ch] calls, each with a quiet read, and the
    values they returned. *)
Inductive polls {S} (env : Env S) (ch s : Z) (below : bool)
    : t -> World S -> list Z -> t -> World S -> Prop :=
| polls_nil a w : polls env ch s below a w [] a w
| polls_cons a w x a1 w1 xs a2 w2 :
    quiet env ch s below a w ->
    getPot16 env ch a w = Some (x, a1, w1) ->
    polls env ch s below a1 w1 xs a2 w2 ->
    polls env ch s below a w (x :: xs) a2 w2.

(** The hook state on the side [below] of the hook point. *)
Definition side (below : bool) : hook := if below then under else over.

End Polling.

(** ** Further objects used to run the code *)

Module Fixture2.

(** An encoder target whose counter 1 holds -2 and whose button 2 is
    pressed. *)
Definition counting_bus : World Sim.t :=
  Sim.world (Sim.init Wire 65
    (Sim.regs_of [(4, 254); (5, 255); (6, 255); (7, 255);
                  (80, 1); (81, 1); (82, 0)])).

End Fixture2.

(** * Verification *)

(** ** Stepping the driver monad *)

Section Steps.
Context {S : Type} (env : Env S).

Lemma call_step {St} (c : Call) (st : St) (w : World S) :
  call env c st w =
    Some ((env c (dev w)).1, st,
          mkWorld (env c (dev w)).2 (trace w ++ [(c, (env c (dev w)).1)])).
Proof. unfold call. destruct (env c (dev w)); reflexivity. Qed.

Lemma bind_step {St A B} (m : Drv S St A) (k : A -> Drv S St B) st w a st' w' :
  m st w = Some (a, st', w') -> bind m k st w = k a st' w'.
Proof. intros H. unfold bind. rewrite H. reflexivity. Qed.

Lemma bind_assoc {St A B C} (m : Drv S St A) (k1 : A -> Drv S St B)
    (k2 : B -> Drv S St C) st w :
  bind (bind m k1) k2 st w = bind m (fun x => bind (k1 x) k2) st w.
Proof. unfold bind. destruct (m st w) as [[[? ?] ?]|]; reflexivity. Qed.

Lemma bind_pure {St A B} (a : A) (k : A -> Drv S St B) st w :
  bind (pure a) k st w = k a st w.
Proof. reflexivity. Qed.

Lemma bind_undefined {St A B} (m : Drv S St A) (k : A -> Drv S St B) st w :
  m st w = None -> bind m k st w = None.
Proof. intros H. unfold bind. rewrite H. reflexivity. Qed.

Lemma lift_step {St Sub A} (proj : St -> Sub) upd (m : Drv S Sub A) st w a sub' w' :
  m (proj st) w = Some (a, sub', w') ->
  lift proj upd m st w = Some (a, upd sub' st, w').
Proof. intros H. unfold lift. rewrite H. reflexivity. Qed.

End Steps.

(** Run the first action of a sequence with a known result. *)
Ltac mstep H := rewrite ?bind_assoc; rewrite (bind_step _ _ _ _ _ _ _ H).

(** ** The register transport *)

Module UnitFacts.
Import M5w_Unit Obs.

Section Facts.
Context {S : Type} (env : Env S).

Lemma addDelayIfNeeded_spec (u : t) (w : World S) :
  exists now r w1,
    addDelayIfNeeded env u w = Some (tt, u, w1) /\
    trace w1 = trace w ++ gate u now r.
Proof.
  unfold addDelayIfNeeded, micros, delayMicroseconds, bind, get, pure, gate, elapsed.
  rewrite call_step. cbn [fst snd].
  destruct (u32 (u32 (env Micros (dev w)).1 - lastLEDtime u) <? LEDdelay u) eqn:E.
  - rewrite call_step. cbn [dev trace fst snd].
    eexists _, _, _. split; [reflexivity|]. cbn [trace]. rewrite E.
    rewrite <- app_assoc. reflexivity.
  - eexists _, 0, _. split; [reflexivity|]. cbn [trace]. rewrite E. reflexivity.
Qed.

Lemma read_loop_spec (k : nat) : forall (i : nat) (value : list Z) (u : t) (w : World S),
  (i + k <= length value)%nat ->
  exists rs w',
    length rs = k /\
    read_loop env k i value u w =
      Some (take i value ++ map u8 rs ++ drop (i + k) value, u, w') /\
    trace w' = trace w ++ reads rs.
Proof.
  induction k as [|k IH]; intros i value u w Hlen.
  - exists [], w. split; [reflexivity|]. split.
    + cbn. unfold pure. rewrite Nat.add_0_r, take_drop. reflexivity.
    + cbn. rewrite app_nil_r. reflexivity.
  - cbn [read_loop]. unfold wire_read, bind. rewrite call_step.
    destruct (Nat.ltb_spec i (length value)) as [Hi|Hi]; [|exfalso; lia].
    set (r := (env (WireRead Wire) (dev w)).1).
    set (w1 := mkWorld _ _).
    destruct (IH (Datatypes.S i) (<[i := u8 r]> value) u w1) as (rs & w' & Hrs & Hrun & Htr).
    { rewrite length_insert. lia. }
    exists (r :: rs), w'. split; [cbn; lia|]. split.
    + rewrite Hrun. f_equal. f_equal. f_equal.
      rewrite drop_insert_lt by lia.
      replace (Datatypes.S i + k)%nat with (i + Datatypes.S k)%nat by lia.
      rewrite (take_S_r (<[i := u8 r]> value) i (u8 r)).
      2:{ apply list_lookup_insert_eq. lia. }
      rewrite take_insert_ge by lia.
      rewrite <- app_assoc. reflexivity.
    + rewrite Htr. subst w1. cbn [trace]. rewrite <- app_assoc. reflexivity.
Qed.

Lemma readBytes_spec (reg n : Z) (value : list Z) (u : t) (w : World S) :
  (Z.to_nat n <= length value)%nat ->
  exists now r res u' w' evs,
    readBytes env reg value n u w = Some (res, u', w') /\
    trace w' = trace w ++ gate u now r ++ evs /\
    read_outcome u reg n value res u' evs.
Proof.
  intros Hn.
  destruct (addDelayIfNeeded_spec u w) as (now & r & w1 & Hgate & Htr1).
  exists now, r.
  unfold readBytes. rewrite (bind_step _ _ _ _ _ _ _ Hgate).
  unfold get, beginTransmission, wire_write, endTransmission, requestFrom,
    modify, bind, pure.
  rewrite !call_step. cbn [dev trace fst snd].
  set (rb := (env (BeginTransmission (wire u) (addr u)) (dev w1)).1).
  set (d2 := (env (BeginTransmission (wire u) (addr u)) (dev w1)).2).
  set (rw := (env (WireWrite (wire u) reg) d2).1).
  set (d3 := (env (WireWrite (wire u) reg) d2).2).
  set (re := (env (EndTransmission (wire u)) d3).1).
  set (d4 := (env (EndTransmission (wire u)) d3).2).
  destruct (u8 re =? 0) eqn:Ee.
  - apply Z.eqb_eq in Ee. rewrite call_step. cbn [dev trace fst snd].
    set (rq := (env (RequestFrom (wire u) (addr u) n) d4).1).
    set (d5 := (env (RequestFrom (wire u) (addr u) n) d4).2).
    destruct (u8 rq =? 0) eqn:Eq; cbn [negb].
    + apply Z.eqb_eq in Eq.
      eexists _, _, _, _. split; [reflexivity|]. split.
      2:{ unfold set_endError; cbn. apply (read_refused u reg n value rb rw re rq Ee Eq). }
      cbn [trace]. rewrite Htr1. rewrite <- !app_assoc. reflexivity.
    + apply Z.eqb_neq in Eq.
      set (w5 := mkWorld d5 _).
      destruct (read_loop_spec (Z.to_nat n) 0 value (set_endError (u8 re) u) w5)
        as (rs & w' & Hrs & Hrun & Htr); [lia|].
      rewrite Hrun. cbn [take app Nat.add].
      eexists _, _, _, _. split; [reflexivity|]. split.
      2:{ rewrite Ee. apply (read_ok u reg n value rb rw re rq rs Ee Eq Hrs). }
      rewrite Htr. subst w5. cbn [trace]. rewrite Htr1.
      rewrite <- !app_assoc. reflexivity.
  - apply Z.eqb_neq in Ee.
    eexists _, _, _, _. split; [reflexivity|]. split.
    2:{ unfold set_endError; cbn. apply (read_nack u reg n value rb rw re Ee). }
    cbn [trace]. rewrite Htr1. rewrite <- !app_assoc. reflexivity.
Qed.

Lemma writeBytes_spec (reg n : Z) (value : list Z) (u : t) (w : World S) :
  (Z.to_nat n <= length value)%nat ->
  exists now r rb rw rv re w',
    writeBytes env reg value n u w = Some (tt, set_endError (u8 re) u, w') /\
    trace w' = trace w ++ gate u now r ++
      [(BeginTransmission (wire u) (addr u), rb);
       (WireWrite (wire u) reg, rw);
       (WireWriteBuf (wire u) (take (Z.to_nat n) value), rv);
       (EndTransmission (wire u), re)].
Proof.
  intros Hn.
  destruct (addDelayIfNeeded_spec u w) as (now & r & w1 & Hgate & Htr1).
  exists now, r.
  unfold writeBytes. rewrite (bind_step _ _ _ _ _ _ _ Hgate).
  unfold get, beginTransmission, wire_write, wire_write_buf, endTransmission,
    modify, bind, pure.
  destruct (Nat.leb_spec (Z.to_nat n) (length value)) as [_|]; [|exfalso; lia].
  rewrite !call_step. cbn [dev trace fst snd].
  eexists _, _, _, _, _. split; [reflexivity|].
  cbn [trace]. rewrite Htr1. rewrite <- !app_assoc. reflexivity.
Qed.

(** Inside the gate the driver waits exactly for the remainder. *)
Lemma gate_remainder (u : t) (now : Z) :
  0 <= LEDdelay u < 4294967296 ->
  elapsed u now < LEDdelay u ->
  u32 (LEDdelay u - elapsed u now) = LEDdelay u - elapsed u now /\
  0 <= elapsed u now.
Proof.
  intros Hd He. unfold elapsed in *. unfold u32 at 1.
  pose proof (Z.mod_pos_bound (u32 now - lastLEDtime u) 4294967296 ltac:(lia)) as Hb.
  fold (u32 (u32 now - lastLEDtime u)) in Hb.
  split; [|lia]. apply Z.mod_small. lia.
Qed.

End Facts.




(** The data bytes are taken from the global [Wire] object also for a
    unit constructed on another bus: its target answers 17, 34 on
    [Wire1], and the buffer receives what [Wire.read()] gives for an empty
    receive buffer. *)
Lemma readBytes_reads_global_Wire :
  result (readBytes Sim.handler 0 [0; 0] 2 Fixture.unit1 Fixture.bus1)
    = Some (0, [255; 255]).
Proof. vm_compute. reflexivity. Qed.


Section Gated.
Context {S : Type} (env : Env S).

Lemma bus_calls_app (l1 l2 : list Event) :
  bus_calls (l1 ++ l2) = bus_calls l1 ++ bus_calls l2.
Proof.
  induction l1 as [|[c r] l1 IH]; [reflexivity|].
  cbn. destruct (is_bus c); cbn; rewrite IH; reflexivity.
Qed.

Lemma bus_calls_gate (u : t) (now r : Z) : bus_calls (gate u now r) = [].
Proof. unfold gate. cbn. destruct (_ <? _); reflexivity. Qed.

Lemma same_target_gated (u u' : t) (reg : Z) (seg : list Event) :
  same_target u u' -> gated_read u' reg seg -> gated_read u reg seg.
Proof.
  intros (Ha & Hw & Hl & Hd) (now & r & rb & rw & re & tail & -> & Htail).
  exists now, r, rb, rw, re, tail. split; [|exact Htail].
  unfold gate, elapsed, address_frame. rewrite Ha, Hw, Hl, Hd. reflexivity.
Qed.

Lemma same_target_trans (u1 u2 u3 : t) :
  same_target u1 u2 -> same_target u2 u3 -> same_target u1 u3.
Proof. unfold same_target. intros (?&?&?&?) (?&?&?&?). split_and!; congruence. Qed.

(** Every [readBytes] call passes the gate first and keeps the members
    the gate depends on. *)
Lemma readBytes_gated (reg n : Z) (value : list Z) (u : t) (w : World S) :
  (Z.to_nat n <= length value)%nat ->
  exists res u' w' seg,
    readBytes env reg value n u w = Some (res, u', w') /\
    trace w' = trace w ++ seg /\
    gated_read u reg seg /\
    same_target u u'.
Proof.
  intros Hn.
  destruct (readBytes_spec env reg n value u w Hn)
    as (now & r & res & u' & w' & evs & Hrun & Htr & Hout).
  exists res, u', w', (gate u now r ++ evs).
  split; [exact Hrun|]. split; [exact Htr|].
  inversion Hout as [rb rw re He | rb rw re rq He Hq | rb rw re rq rs He Hq Hrs];
    subst; (split; [|done]); exists now, r, rb, rw, re.
  - exists []. rewrite app_nil_r. done.
  - exists [(RequestFrom (wire u) (addr u) n, rq)]. split; [done|].
    repeat constructor.
  - exists ((RequestFrom (wire u) (addr u) n, rq) :: reads rs). split; [done|].
    constructor; [reflexivity|]. unfold reads. apply Forall_fmap, Forall_true.
    reflexivity.
Qed.

Lemma getByte_gated (indet reg : Z) (u : t) (w : World S) :
  exists b u' w' seg,
    getByte env indet reg u w = Some (b, u', w') /\
    trace w' = trace w ++ seg /\
    gated_read u reg seg /\
    same_target u u'.
Proof.
  destruct (readBytes_gated reg 1 (le_bytes 1 indet) u w ltac:(cbn; lia))
    as ([st buf] & u' & w' & seg & Hrun & Htr & Hg & Hs).
  unfold getByte. rewrite (bind_step _ _ _ _ _ _ _ Hrun). cbn [fst snd].
  destruct (negb (st =? 0)); eexists _, u', w', seg; done.
Qed.

Lemma getLong_gated (indet reg : Z) (u : t) (w : World S) :
  exists b u' w' seg,
    getLong env indet reg u w = Some (b, u', w') /\
    trace w' = trace w ++ seg /\
    gated_read u reg seg /\
    same_target u u'.
Proof.
  destruct (readBytes_gated reg 4 (le_bytes 4 indet) u w ltac:(cbn; lia))
    as ([st buf] & u' & w' & seg & Hrun & Htr & Hg & Hs).
  unfold getLong. rewrite (bind_step _ _ _ _ _ _ _ Hrun). cbn [fst snd].
  destruct (negb (st =? 0)); eexists _, u', w', seg; done.
Qed.

End Gated.

(** *** On the simulated bus *)





(** Without a target at the old address the write is not acknowledged,
    and the local address is changed all the same. *)
Lemma setAddress_without_target :
  final (setAddress Sim.handler 66 (new 65 Wire 0)
           (Sim.world (Sim.init Wire 70 (fun _ => 0))))
  = Some (mk 66 Wire 0 2 0 80).
Proof. vm_compute. reflexivity. Qed.


End UnitFacts.

(** ** The potentiometer unit *)

Module AngleFacts.
Import M5w_8angle HookTable Obs.

Lemma le_val_bytes (bs : list Z) :
  Forall (fun b => 0 <= b < 256) bs -> 0 <= le_val bs < 256 ^ Z.of_nat (length bs).
Proof.
  induction 1 as [|b bs Hb _ IH]; [cbn; lia|].
  cbn [le_val length]. rewrite Nat2Z.inj_succ, Z.pow_succ_r by lia. lia.
Qed.

Lemma le_bytes_range (n : nat) : forall z, Forall (fun b => 0 <= b < 256) (le_bytes n z).
Proof.
  induction n as [|n IH]; intros z; cbn; constructor; [|apply IH].
  apply Z.mod_pos_bound. lia.
Qed.

Lemma read_outcome_bytes (u u' : M5w_Unit.t) reg n value st buf evs :
  Forall (fun b => 0 <= b < 256) value ->
  (Z.to_nat n <= length value)%nat ->
  read_outcome u reg n value (st, buf) u' evs ->
  Forall (fun b => 0 <= b < 256) buf /\ length buf = length value.
Proof.
  intros Hv Hn Hout.
  inversion Hout as [| |rb rw re rq rs He Hq Hrs]; subst; try done.
  split.
  - apply Forall_app. split; [|by apply Forall_drop].
    apply Forall_fmap, Forall_true. intros r. apply Z.mod_pos_bound. lia.
  - rewrite length_app, length_map, length_drop. lia.
Qed.

Section Facts.
Context {S : Type} (env : Env S).

Lemma pot_get_ok (ch v : Z) (a : t) (w : World S) :
  0 <= ch -> potValues a !! Z.to_nat ch = Some v ->
  pot_get ch a w = Some (v, a, w).
Proof.
  intros Hch Hv. unfold pot_get.
  destruct (Z.leb_spec 0 ch); [|lia]. rewrite Hv. reflexivity.
Qed.

Lemma hook_get_ok (ch : Z) (h : hook) (a : t) (w : World S) :
  0 <= ch -> hooks a !! Z.to_nat ch = Some h ->
  hook_get ch a w = Some (h, a, w).
Proof.
  intros Hch Hh. unfold hook_get.
  destruct (Z.leb_spec 0 ch); [|lia]. rewrite Hh. reflexivity.
Qed.

Lemma pot_set_ok (ch v : Z) (a : t) (w : World S) :
  0 <= ch -> (Z.to_nat ch < length (potValues a))%nat ->
  pot_set ch v a w =
    Some (tt, mk (unit a) (<[Z.to_nat ch := v]> (potValues a)) (hooks a), w).
Proof.
  intros Hch Hlt. unfold pot_set.
  destruct (Z.leb_spec 0 ch); [|lia].
  destruct (Nat.ltb_spec (Z.to_nat ch) (length (potValues a))); [|lia].
  reflexivity.
Qed.

Lemma hook_set_ok (ch : Z) (h : hook) (a : t) (w : World S) :
  0 <= ch -> (Z.to_nat ch < length (hooks a))%nat ->
  hook_set ch h a w =
    Some (tt, mk (unit a) (potValues a) (<[Z.to_nat ch := h]> (hooks a)), w).
Proof.
  intros Hch Hlt. unfold hook_set.
  destruct (Z.leb_spec 0 ch); [|lia].
  destruct (Nat.ltb_spec (Z.to_nat ch) (length (hooks a))); [|lia].
  reflexivity.
Qed.

(** One [getPot16] call: the register read, then the table. *)
Lemma getPot16_spec (ch s : Z) (h : hook) (a : t) (w : World S) :
  0 <= ch ->
  potValues a !! Z.to_nat ch = Some s ->
  hooks a !! Z.to_nat ch = Some h ->
  exists now r st buf u' w' evs,
    M5w_Unit.readBytes env (u8 (0 + ch * 2)) (le_bytes 2 s) 2 (unit a) w
      = Some ((st, buf), u', w') /\
    trace w' = trace w ++ gate (unit a) now r ++ evs /\
    read_outcome (unit a) (u8 (0 + ch * 2)) 2 (le_bytes 2 s) (st, buf) u' evs /\
    0 <= le_val buf < 65536 /\
    let hx := if st =? 0 then after_read h (decode (le_val buf)) s else (h, s) in
    getPot16 env ch a w =
      Some (hx.2,
            mk u' (<[Z.to_nat ch := hx.2]> (potValues a))
                  (<[Z.to_nat ch := hx.1]> (hooks a)),
            w').
Proof.
  intros Hch Hs Hh.
  pose proof (lookup_lt_Some _ _ _ Hs) as Hlp.
  pose proof (lookup_lt_Some _ _ _ Hh) as Hlh.
  assert (Hn2 : (Z.to_nat 2 <= length (le_bytes 2 s))%nat) by (cbn; lia).
  destruct (UnitFacts.readBytes_spec env (u8 (0 + ch * 2)) 2 (le_bytes 2 s)
              (unit a) w Hn2)
    as (now & r & [st buf] & u' & w' & evs & Hrun & Htr & Hout).
  exists now, r, st, buf, u', w', evs.
  split; [exact Hrun|]. split; [exact Htr|]. split; [exact Hout|].
  destruct (read_outcome_bytes _ _ _ _ _ _ _ _ (le_bytes_range 2 s) Hn2 Hout)
    as [Hbytes Hlen].
  pose proof (le_val_bytes buf Hbytes) as Hraw.
  rewrite Hlen in Hraw. cbn in Hraw.
  split; [lia|].
  unfold getPot16.
  rewrite (bind_step _ _ _ _ _ _ _ (pot_get_ok ch s a w Hch Hs)).
  rewrite (bind_step _ _ _ _ _ _ _
             (lift_step unit (fun u a => mk u (potValues a) (hooks a)) _ _ _ _ _ _ Hrun)).
  cbn [fst snd].
  set (a1 := mk u' (potValues a) (hooks a)).
  assert (Hdec : (if le_val buf >? POTMAX then 0 else u16 (POTMAX - le_val buf))
                 = decode (le_val buf)).
  { unfold decode. destruct (Z.gtb_spec (le_val buf) POTMAX); [reflexivity|].
    unfold u16, POTMAX in *. apply Z.mod_small. lia. }
  rewrite Hdec. set (v := decode (le_val buf)).
  assert (Hid : forall (x : list hook), mk u' (<[Z.to_nat ch := s]> (potValues a)) x
                 = mk u' (potValues a) x).
  { intros x. rewrite (list_insert_id _ _ _ Hs). reflexivity. }
  assert (Hfin : forall x hs,
            pot_get ch (mk u' (<[Z.to_nat ch := x]> (potValues a)) hs) w'
            = Some (x, mk u' (<[Z.to_nat ch := x]> (potValues a)) hs, w')).
  { intros x hs. apply pot_get_ok; [exact Hch|].
    cbn. apply list_lookup_insert_eq. exact Hlp. }
  destruct (st =? 0).
  - mstep (hook_get_ok ch h a1 w' Hch Hh).
    unfold after_read, hook_rule.
    destruct h.
    + (* unhooked *)
      mstep (pot_set_ok ch v a1 w' Hch Hlp).
      cbn [fst snd potValues hooks unit a1].
      rewrite (list_insert_id (hooks a) _ _ Hh). apply Hfin.
    + (* under *)
      mstep (pot_get_ok ch s a1 w' Hch Hs).
      destruct (v >=? s); cbn [fst snd].
      * mstep (hook_set_ok ch unhooked a1 w' Hch Hlh).
        mstep (pot_set_ok ch v (mk u' (potValues a) (<[Z.to_nat ch := unhooked]> (hooks a)))
                 w' Hch Hlp).
        apply Hfin.
      * rewrite bind_pure, Hid, (list_insert_id (hooks a) _ _ Hh).
        apply pot_get_ok; [exact Hch|exact Hs].
    + (* over *)
      mstep (pot_get_ok ch s a1 w' Hch Hs).
      destruct (v <=? s); cbn [fst snd].
      * mstep (hook_set_ok ch unhooked a1 w' Hch Hlh).
        mstep (pot_set_ok ch v (mk u' (potValues a) (<[Z.to_nat ch := unhooked]> (hooks a)))
                 w' Hch Hlp).
        apply Hfin.
      * rewrite bind_pure, Hid, (list_insert_id (hooks a) _ _ Hh).
        apply pot_get_ok; [exact Hch|exact Hs].
    + (* hooking *)
      mstep (pot_get_ok ch s a1 w' Hch Hs).
      destruct (v <? s); cbn [fst snd].
      * mstep (hook_set_ok ch under a1 w' Hch Hlh).
        rewrite Hid. apply pot_get_ok; [exact Hch|exact Hs].
      * destruct (v >? s); cbn [fst snd].
        -- mstep (hook_set_ok ch over a1 w' Hch Hlh).
           rewrite Hid. apply pot_get_ok; [exact Hch|exact Hs].
        -- mstep (hook_set_ok ch unhooked a1 w' Hch Hlh).
           mstep (pot_set_ok ch v
                    (mk u' (potValues a) (<[Z.to_nat ch := unhooked]> (hooks a)))
                    w' Hch Hlp).
           apply Hfin.
  - rewrite bind_pure. cbn [fst snd].
    rewrite Hid, (list_insert_id (hooks a) _ _ Hh).
    apply pot_get_ok; [exact Hch|exact Hs].
Qed.

End Facts.

Lemma channel_lookup (a : t) (ch : Z) (h : hook) (s : Z) :
  channel a ch = Some (h, s) ->
  hooks a !! Z.to_nat ch = Some h /\ potValues a !! Z.to_nat ch = Some s.
Proof.
  unfold channel. destruct (hooks a !! Z.to_nat ch), (potValues a !! Z.to_nat ch);
    intros H; inversion H; done.
Qed.

Lemma channel_insert (u : M5w_Unit.t) (ps : list Z) (hs : list hook) (ch : Z)
    (h : hook) (x : Z) :
  (Z.to_nat ch < length ps)%nat -> (Z.to_nat ch < length hs)%nat ->
  channel (mk u (<[Z.to_nat ch := x]> ps) (<[Z.to_nat ch := h]> hs)) ch = Some (h, x).
Proof.
  intros Hp Hh. unfold channel. cbn.
  rewrite !list_lookup_insert_eq by assumption. reflexivity.
Qed.

(** Every channel 0..7 of a well-formed unit has a state and a stored
    value; a new unit is well formed with all channels unhooked at 0. *)
Lemma wf_channel (a : t) (ch : Z) :
  wf a -> 0 <= ch < 8 -> exists h s, channel a ch = Some (h, s).
Proof.
  intros [Hp Hh] Hch. unfold POT_COUNT in *. unfold channel.
  destruct (lookup_lt_is_Some_2 (hooks a) (Z.to_nat ch) ltac:(lia)) as [h ->].
  destruct (lookup_lt_is_Some_2 (potValues a) (Z.to_nat ch) ltac:(lia)) as [s ->].
  eauto.
Qed.

Lemma new_wf (ad : Z) (bus : TwoWire) (junk : Z) (ch : Z) :
  wf (new ad bus junk) /\
  (0 <= ch < 8 -> channel (new ad bus junk) ch = Some (unhooked, 0)).
Proof.
  split; [split; reflexivity|]. intros Hch. unfold channel, new. cbn [hooks potValues].
  rewrite !lookup_replicate_2 by (unfold POT_COUNT; lia). reflexivity.
Qed.

(** C6.  For an unhooked channel whose two-byte register at [0 + 2*ch]
    was read with status 0 and holds the little-endian value [raw],
    [getPot16] returns and stores [POTMAX - raw] when [raw <= POTMAX] and
    0 otherwise; a raw value of 0x0100 gives 3836. *)
Theorem getPot16_unhooked_inverts {S} (env : Env S) (ch s : Z) (a : t)
    (w : World S) (buf : list Z) (u' : M5w_Unit.t) (w' : World S) :
  0 <= ch < 8 ->
  channel a ch = Some (unhooked, s) ->
  M5w_Unit.readBytes env (0 + 2 * ch) (le_bytes 2 s) 2 (unit a) w
    = Some ((0, buf), u', w') ->
  let raw := le_val buf in
  let value := if raw <=? POTMAX then POTMAX - raw else 0 in
  getPot16 env ch a w =
    Some (value, mk u' (<[Z.to_nat ch := value]> (potValues a)) (hooks a), w') /\
  0 <= raw < 65536 /\
  (raw = 256 -> value = 3836).
Proof.
  intros Hch Hc Hread raw value.
  apply channel_lookup in Hc as [Hh Hs].
  destruct (getPot16_spec env ch s unhooked a w ltac:(lia) Hs Hh)
    as (now & r & st & buf0 & u0 & w0 & evs & Hrun & _ & _ & Hraw & Hget).
  replace (u8 (0 + ch * 2)) with (0 + 2 * ch) in Hrun
    by (unfold u8; rewrite Z.mod_small; lia).
  rewrite Hread in Hrun. injection Hrun as <- <- <- <-.
  cbn [Z.eqb] in Hget. unfold after_read, hook_rule in Hget. cbn [fst snd] in Hget.
  rewrite (list_insert_id (hooks a) _ _ Hh) in Hget.
  assert (Hv : decode (le_val buf) = value).
  { unfold decode, value, raw.
    destruct (Z.gtb_spec (le_val buf) POTMAX), (Z.leb_spec (le_val buf) POTMAX);
      try reflexivity; lia. }
  rewrite Hv in Hget. split; [exact Hget|]. split; [exact Hraw|].
  intros H256. unfold value. rewrite H256. reflexivity.
Qed.

(** Witness for C6: the angle unit at 0x43, channel 3 raw 0x0100. *)
Lemma getPot16_unhooked_inverts_witness :
  result (getPot16 Sim.handler 3 Fixture.angle Fixture.angle_bus) = Some 3836.
Proof.
  assert (Hch : 0 <= 3 < 8) by lia.
  assert (Hc : channel Fixture.angle 3 = Some (unhooked, 0)) by reflexivity.
  edestruct (getPot16_unhooked_inverts Sim.handler 3 0 Fixture.angle
               Fixture.angle_bus) as (Hrun & _ & _);
    [exact Hch | exact Hc | vm_compute; reflexivity |].
  rewrite Hrun. reflexivity.
Defined.

(** C1.  [setHook ch s] leaves the channel hooking with stored value
    [s].  A read with status 0 that decodes to [v] then moves a hooking
    channel to under for [v < s] and to over for [v > s], the stored
    value staying [s], and unhooks it storing [v] for [v = s]; an under
    channel is unhooked with [v] stored by [v >= s] and an over channel by
    [v <= s], and both stay as they are otherwise.  [getLast] returns the
    stored value. *)
Theorem hook_state_machine {S} (env : Env S) (ch s : Z) :
  0 <= ch < 8 ->
  (forall a (w : World S), wf a ->
     exists a0,
       setHook ch s a w = Some (tt, a0, w) /\
       channel a0 ch = Some (hooking, s) /\
       getLast ch a0 w = Some (s, a0, w) /\
       wf a0) /\
  (forall h a (w : World S) buf u' w',
     channel a ch = Some (h, s) ->
     M5w_Unit.readBytes env (0 + 2 * ch) (le_bytes 2 s) 2 (unit a) w
       = Some ((0, buf), u', w') ->
     let v := decode (le_val buf) in
     exists x a',
       getPot16 env ch a w = Some (x, a', w') /\
       getLast ch a' w' = Some (x, a', w') /\
       (h = hooking ->
          (v < s -> channel a' ch = Some (under, s)) /\
          (v > s -> channel a' ch = Some (over, s)) /\
          (v = s -> channel a' ch = Some (unhooked, v))) /\
       (h = under ->
          (v >= s -> channel a' ch = Some (unhooked, v)) /\
          (v < s -> channel a' ch = Some (under, s))) /\
       (h = over ->
          (v <= s -> channel a' ch = Some (unhooked, v)) /\
          (v > s -> channel a' ch = Some (over, s)))).
Proof.
  intros Hch. split.
  - intros a w [Hlp Hlh]. unfold POT_COUNT in *.
    assert (Hp : (Z.to_nat ch < length (potValues a))%nat) by lia.
    assert (Hh : (Z.to_nat ch < length (hooks a))%nat) by lia.
    eexists. unfold setHook.
    mstep (hook_set_ok ch hooking a w ltac:(lia) Hh).
    split; [apply pot_set_ok; [lia|exact Hp]|].
    split; [apply channel_insert; assumption|]. split.
    + apply pot_get_ok; [lia|]. cbn. apply list_lookup_insert_eq. exact Hp.
    + split; cbn; rewrite length_insert; assumption.
  - intros h a w buf u' w' Hc Hread v.
    apply channel_lookup in Hc as [Hh Hs].
    pose proof (lookup_lt_Some _ _ _ Hs) as Hlp.
    pose proof (lookup_lt_Some _ _ _ Hh) as Hlh.
    destruct (getPot16_spec env ch s h a w ltac:(lia) Hs Hh)
      as (now & r & st & buf0 & u0 & w0 & evs & Hrun & _ & _ & _ & Hget).
    replace (u8 (0 + ch * 2)) with (0 + 2 * ch) in Hrun
      by (unfold u8; rewrite Z.mod_small; lia).
    rewrite Hread in Hrun. injection Hrun as <- <- <- <-.
    cbn [Z.eqb] in Hget. fold v in Hget.
    eexists _, _. split; [exact Hget|]. split.
    { apply pot_get_ok; [lia|]. cbn. apply list_lookup_insert_eq. exact Hlp. }
    unfold after_read, hook_rule. cbn [fst snd].
    split_and!; intros ->; split_and!; intros Hv.
    + destruct (Z.ltb_spec v s); [|lia]. cbn. by apply channel_insert.
    + destruct (Z.ltb_spec v s); [lia|]. destruct (Z.gtb_spec v s); [|lia].
      cbn. by apply channel_insert.
    + destruct (Z.ltb_spec v s); [lia|]. destruct (Z.gtb_spec v s); [lia|].
      cbn. by apply channel_insert.
    + destruct (Z.geb_spec v s); [|lia]. cbn. by apply channel_insert.
    + destruct (Z.geb_spec v s); [lia|]. cbn. by apply channel_insert.
    + destruct (Z.leb_spec v s); [|lia]. cbn. by apply channel_insert.
    + destruct (Z.leb_spec v s); [lia|]. cbn. by apply channel_insert.
Qed.

(** Witness for C1: channel 3 is hooked at 2000 and the next read, of raw
    0x0100, decodes to 3836, above the hook point. *)
Lemma hook_state_machine_witness :
  0 <= 3 < 8 /\
  exists x a' w',
    getPot16 Sim.handler 3 Fixture.angle_hooked Fixture.angle_bus = Some (x, a', w') /\
    channel a' 3 = Some (over, 2000).
Proof.
  assert (Hch : 0 <= 3 < 8) by lia.
  split; [exact Hch|].
  edestruct (proj2 (hook_state_machine Sim.handler 3 2000 Hch) hooking
               Fixture.angle_hooked Fixture.angle_bus)
    as (x & a' & Hrun & _ & Hhook & _);
    [reflexivity | vm_compute; reflexivity |].
  eexists x, a', _. split; [exact Hrun|].
  apply (Hhook eq_refl). vm_compute. reflexivity.
Defined.

(** C7.  A [getPot16 ch] call returns the stored value of the channel
    and changes [potValues] at index [ch] at most; the stored value is
    replaced only by the decoded value of a read with status 0 that the
    table accepts, a rejected value is never stored, and a failed read
    leaves [potValues], [hooks] and the returned value as they were.  The
    operations that are not reads of a potentiometer ([getLast],
    [isHooking], [clearHook], [getSwitch], [writeLED]) leave [potValues]
    unchanged; [setHook] is the explicit store. *)
Theorem potValues_change_only_when_accepted {S} (env : Env S) (indet : Z)
    (ch s : Z) (h : hook) (a : t) (w : World S) :
  0 <= ch ->
  channel a ch = Some (h, s) ->
  (exists st buf u' w' x a',
     M5w_Unit.readBytes env (u8 (0 + ch * 2)) (le_bytes 2 s) 2 (unit a) w
       = Some ((st, buf), u', w') /\
     getPot16 env ch a w = Some (x, a', w') /\
     potValues a' = <[Z.to_nat ch := x]> (potValues a) /\
     potValues a' !! Z.to_nat ch = Some x /\
     (x = s \/
      st = 0 /\ x = decode (le_val buf) /\ (hook_rule h x s).2 = true) /\
     (st = 0 -> (hook_rule h (decode (le_val buf)) s).2 = false ->
        potValues a' = potValues a) /\
     (st <> 0 -> x = s /\ potValues a' = potValues a /\ hooks a' = hooks a)) /\
  (forall r a' w',
     getLast ch a w = Some (r, a', w') \/
     (exists b, isHooking ch a w = Some (b, a', w')) \/
     clearHook ch a w = Some (tt, a', w') \/
     getSwitch env indet a w = Some (r, a', w') \/
     (exists led colour, writeLED env led colour a w = Some (tt, a', w')) ->
     potValues a' = potValues a).
Proof.
  intros Hch Hc. apply channel_lookup in Hc as [Hh Hs].
  pose proof (lookup_lt_Some _ _ _ Hs) as Hlp.
  split.
  - destruct (getPot16_spec env ch s h a w Hch Hs Hh)
      as (now & r & st & buf & u' & w' & evs & Hrun & _ & _ & _ & Hget).
    exists st, buf, u', w'. eexists _, _. split; [exact Hrun|].
    split; [exact Hget|]. cbn [potValues hooks].
    split; [reflexivity|].
    split; [apply list_lookup_insert_eq; exact Hlp|].
    destruct (Z.eqb_spec st 0) as [->|Hst]; cbn [fst snd]; unfold after_read;
      cbn [fst snd].
    + split_and!.
      * destruct (hook_rule h (decode (le_val buf)) s).2 eqn:E; [right|left]; done.
      * intros _ Hrej. rewrite Hrej. apply list_insert_id. exact Hs.
      * intros Hne. done.
    + split_and!.
      * left. reflexivity.
      * intros H0. done.
      * intros _. split; [reflexivity|].
        rewrite (list_insert_id _ _ _ Hs), (list_insert_id _ _ _ Hh). done.
  - intros r a' w' [H|[[b H]|[H|[H|(led & colour & H)]]]].
    + unfold getLast, pot_get in H.
      destruct (0 <=? ch); [|discriminate].
      destruct (potValues a !! Z.to_nat ch); inversion H; reflexivity.
    + unfold isHooking, bind, hook_get, pure in H.
      destruct (0 <=? ch); [|discriminate].
      destruct (hooks a !! Z.to_nat ch); inversion H; reflexivity.
    + unfold clearHook, hook_set in H.
      destruct (_ && _); inversion H; reflexivity.
    + unfold getSwitch, base, lift in H.
      destruct (M5w_Unit.getByte _ _ _ _ _) as [[[? ?] ?]|]; inversion H; reflexivity.
    + unfold writeLED, base, bind, lift in H.
      destruct (M5w_Unit.writeBytes _ _ _ _ _ _) as [[[? ?] ?]|]; [|discriminate].
      cbn [unit potValues hooks] in H.
      destruct (M5w_Unit.micros _ _ _) as [[[? ?] ?]|]; [|discriminate].
      cbn [unit potValues hooks] in H. unfold modify in H.
      inversion H; reflexivity.
Qed.

(** Witness for C7: the hooked channel 3 rejects the reading 3836. *)
Lemma potValues_change_only_when_accepted_witness :
  0 <= 3 /\
  exists x a' w',
    getPot16 Sim.handler 3 Fixture.angle_hooked Fixture.angle_bus = Some (x, a', w') /\
    potValues a' = <[3%nat := x]> (potValues Fixture.angle_hooked).
Proof.
  assert (Hch : 0 <= 3) by lia.
  split; [exact Hch|].
  destruct (proj1 (potValues_change_only_when_accepted Sim.handler 0 3 2000 hooking
                     Fixture.angle_hooked Fixture.angle_bus Hch eq_refl))
    as (st & buf & u' & w' & x & a' & _ & Hrun & Hpots & _).
  exists x, a', w'. split; [exact Hrun|exact Hpots].
Defined.

End AngleFacts.

(** ** The encoder unit *)

Module EncoderFacts.
Import M5w_8encoder ResetFrame Obs.

(** *** The two loops of [resetCounts] *)

Lemma size_nat_bound (p : positive) : forall n : nat,
  Zpos p < 2 ^ Z.of_nat n -> (Pos.size_nat p <= n)%nat.
Proof.
  induction p as [q IH|q IH|]; intros [|n] H; cbn [Pos.size_nat];
    try (cbn in H; lia).
  - rewrite Nat2Z.inj_succ, Z.pow_succ_r in H by lia.
    specialize (IH n ltac:(lia)). lia.
  - rewrite Nat2Z.inj_succ, Z.pow_succ_r in H by lia.
    specialize (IH n ltac:(lia)). lia.
Qed.

Lemma ctz_pos_bound (p : positive) : 0 <= ctz_pos p < Z.of_nat (Pos.size_nat p).
Proof. induction p; cbn [ctz_pos Pos.size_nat]; lia. Qed.

Lemma find_start_pos (p : positive) : forall (fuel : nat) (reg : Z),
  (Pos.size_nat p <= fuel)%nat ->
  0 <= reg -> reg + ctz_pos p < 256 ->
  find_start fuel (Zpos p) reg
    = Some (Z.shiftr (Zpos p) (ctz_pos p), reg + ctz_pos p).
Proof.
  induction p as [q IH|q IH|]; intros [|fuel] reg Hf Hr Hb;
    cbn [Pos.size_nat] in Hf; try lia; cbn [ctz_pos] in *.
  - cbn. rewrite Z.add_0_r. reflexivity.
  - cbn [find_start]. change (Z.land (Z.pos q~0) 1 =? 0) with true. cbv iota.
    change (Z.shiftr (Z.pos q~0) 1) with (Z.pos q).
    pose proof (ctz_pos_bound q).
    replace (u8 (reg + 1)) with (reg + 1) by (unfold u8; rewrite Z.mod_small; lia).
    rewrite IH by lia. f_equal. f_equal; [|lia].
    change (Z.pos q) with (Z.shiftr (Z.pos q~0) 1).
    rewrite Z.shiftr_shiftr by lia. reflexivity.
  - cbn. rewrite Z.add_0_r. reflexivity.
Qed.

Lemma bits_pos_length (p : positive) : length (bits_pos p) = Pos.size_nat p.
Proof. induction p; cbn; congruence. Qed.

Lemma set_flags_pos (p : positive) : forall (fuel : nat) (chList : list Z) (len : nat),
  (Pos.size_nat p < fuel)%nat ->
  (len + Pos.size_nat p <= length chList)%nat ->
  Z.of_nat (len + Pos.size_nat p) < 256 ->
  set_flags fuel (Zpos p) chList (Z.of_nat len)
    = Some (take len chList ++ bits_pos p ++ drop (len + Pos.size_nat p) chList,
            Z.of_nat (len + Pos.size_nat p)).
Proof.
  assert (Hstore : forall (chList : list Z) (len k : nat) (b : Z) (tl : list Z),
            (len < length chList)%nat ->
            take (Datatypes.S len) (<[len := b]> chList) ++ tl ++
              drop (Datatypes.S len + k) (<[len := b]> chList)
            = take len chList ++ (b :: tl) ++ drop (len + Datatypes.S k) chList).
  { intros chList len k b tl Hlen.
    rewrite (take_S_r (<[len := b]> chList) len b)
      by (apply list_lookup_insert_eq; exact Hlen).
    rewrite take_insert_ge by lia. rewrite drop_insert_lt by lia.
    rewrite <- app_assoc. cbn [app].
    replace (Datatypes.S len + k)%nat with (len + Datatypes.S k)%nat by lia.
    reflexivity. }
  induction p as [q IH|q IH|]; intros [|fuel] chList len Hf Hlen Hb;
    cbn [Pos.size_nat] in *; try lia; cbn [set_flags].
  - change (Z.pos q~1 =? 0) with false. cbn [negb].
    rewrite Nat2Z.id. destruct (Nat.ltb_spec len (length chList)); [|lia].
    change (Z.land (Z.pos q~1) 1 =? 0) with false. cbn [negb].
    change (Z.shiftr (Z.pos q~1) 1) with (Z.pos q).
    replace (u8 (Z.of_nat len + 1)) with (Z.of_nat (Datatypes.S len))
      by (unfold u8; rewrite Z.mod_small; lia).
    rewrite IH by (rewrite ?length_insert; lia).
    cbn [bits_pos]. rewrite Hstore by lia. do 2 f_equal. lia.
  - change (Z.pos q~0 =? 0) with false. cbn [negb].
    rewrite Nat2Z.id. destruct (Nat.ltb_spec len (length chList)); [|lia].
    change (Z.land (Z.pos q~0) 1 =? 0) with true. cbn [negb].
    change (Z.shiftr (Z.pos q~0) 1) with (Z.pos q).
    replace (u8 (Z.of_nat len + 1)) with (Z.of_nat (Datatypes.S len))
      by (unfold u8; rewrite Z.mod_small; lia).
    rewrite IH by (rewrite ?length_insert; lia).
    cbn [bits_pos]. rewrite Hstore by lia. do 2 f_equal. lia.
  - change (1 =? 0) with false. cbn [negb].
    rewrite Nat2Z.id. destruct (Nat.ltb_spec len (length chList)); [|lia].
    change (Z.land 1 1 =? 0) with false. cbn [negb].
    change (Z.shiftr 1 1) with 0.
    destruct fuel as [|fuel]; [lia|]. cbn [set_flags].
    change (0 =? 0) with true. cbn [negb bits_pos].
    replace (u8 (Z.of_nat len + 1)) with (Z.of_nat (len + 1))
      by (unfold u8; rewrite Z.mod_small; lia).
    do 2 f_equal.
    rewrite insert_take_drop by lia.
    replace (len + 1)%nat with (Datatypes.S len) by lia. reflexivity.
Qed.

(** *** The loops against the bits of the mask *)

Lemma shiftr_ctz (p : positive) : Z.shiftr (Zpos p) (ctz_pos p) = Zpos (strip p).
Proof.
  induction p as [q IH|q IH|]; cbn [ctz_pos strip]; try reflexivity.
  pose proof (ctz_pos_bound q).
  rewrite <- Z.shiftr_shiftr by lia.
  change (Z.shiftr (Z.pos q~0) 1) with (Z.pos q). exact IH.
Qed.

Lemma strip_size (p : positive) :
  Z.of_nat (Pos.size_nat (strip p)) + ctz_pos p = Z.of_nat (Pos.size_nat p).
Proof. induction p; cbn [ctz_pos strip Pos.size_nat]; lia. Qed.

Lemma log2_size (p : positive) : Z.log2 (Zpos p) = Z.of_nat (Pos.size_nat p) - 1.
Proof.
  assert (H : forall q, Zpos (Pos.size q) = Z.of_nat (Pos.size_nat q)).
  { induction q; cbn [Pos.size Pos.size_nat]; lia. }
  destruct p; cbn [Z.log2 Pos.size_nat]; rewrite ?H; lia.
Qed.

Lemma bits_testbit (p : positive) :
  bits_pos p =
    map (fun i => Z.b2z (Z.testbit (Zpos p) i)) (seqZ 0 (Z.of_nat (Pos.size_nat p))).
Proof.
  assert (Hstep : forall (q : positive) (b : bool) (n : nat),
            map (fun i => Z.b2z (Z.testbit (Zpos (if b then q~1 else q~0)%positive) i))
              (seqZ 0 (Z.of_nat (Datatypes.S n)))
            = Z.b2z b ::
              map (fun i => Z.b2z (Z.testbit (Zpos q) i)) (seqZ 0 (Z.of_nat n))).
  { intros q b n. rewrite Nat2Z.inj_succ, seqZ_cons by lia.
    replace (Z.pred (Z.succ (Z.of_nat n))) with (Z.of_nat n) by lia.
    cbn [map]. f_equal.
    - destruct b; reflexivity.
    - rewrite <- (fmap_add_seqZ 1 0). change (Z.succ 0) with (1 + 0).
      rewrite <- list_fmap_compose. apply list_fmap_ext. intros k i Hi.
      apply lookup_seqZ in Hi as [-> _]. cbn [compose]. f_equal.
      replace (1 + (0 + Z.of_nat k)) with (Z.succ (Z.of_nat k)) by lia.
      destruct b.
      + change (Z.pos q~1) with (2 * Z.pos q + 1).
        apply Z.testbit_odd_succ. lia.
      + change (Z.pos q~0) with (2 * Z.pos q).
        apply Z.testbit_even_succ. lia. }
  induction p as [q IH|q IH|]; cbn [bits_pos Pos.size_nat].
  - rewrite (Hstep q true), <- IH. reflexivity.
  - rewrite (Hstep q false), <- IH. reflexivity.
  - reflexivity.
Qed.

Lemma flag_bytes_strip (p : positive) : flag_bytes (Zpos p) = bits_pos (strip p).
Proof.
  unfold flag_bytes. cbn [trailing_zeros]. rewrite bits_testbit, log2_size.
  pose proof (strip_size p) as Hsz. pose proof (ctz_pos_bound p) as Hctz.
  replace (Z.of_nat (Pos.size_nat p) - 1 - ctz_pos p + 1)
    with (Z.of_nat (Pos.size_nat (strip p))) by lia.
  rewrite <- (Z.add_0_r (ctz_pos p)) at 1.
  rewrite <- (fmap_add_seqZ (ctz_pos p) 0).
  rewrite <- list_fmap_compose. apply list_fmap_ext. intros k i Hi.
  apply lookup_seqZ in Hi as [-> _]. cbn [compose]. f_equal.
  rewrite <- shiftr_ctz. rewrite Z.shiftr_spec by lia. f_equal. lia.
Qed.

(** The lowest set bit of a positive mask is at [trailing_zeros]. *)
Lemma trailing_zeros_lowest (p : positive) :
  Z.testbit (Zpos p) (ctz_pos p) = true /\
  forall j, 0 <= j < ctz_pos p -> Z.testbit (Zpos p) j = false.
Proof.
  pose proof (ctz_pos_bound p) as Hctz. split.
  - replace (ctz_pos p) with (0 + ctz_pos p) by lia.
    rewrite <- Z.shiftr_spec by lia. rewrite shiftr_ctz.
    clear Hctz. induction p; cbn [strip]; try reflexivity. assumption.
  - induction p as [q IH|q IH|]; cbn [ctz_pos]; intros j Hj; try lia.
    destruct (Z.eq_dec j 0) as [->|Hne]; [reflexivity|].
    replace j with (Z.succ (j - 1)) by lia.
    change (Z.pos q~0) with (2 * Z.pos q).
    rewrite Z.testbit_even_succ by lia.
    apply IH; [apply ctz_pos_bound|]. cbn [ctz_pos] in Hj. lia.
Qed.

(** *** [resetCounts] *)

(** C2.  For a non-zero 8-bit mask and enough loop fuel, [resetCounts]
    returns after exactly one framed write: its register is 0x40 plus the
    number of trailing zero bits of the mask, and its payload holds one
    byte per bit position from the lowest through the highest set bit, 1
    for a set bit and 0 otherwise; for mask 0b00000101 that is [1,0,1] at
    0x40.  [resetCounts 0] returns without any call. *)
Theorem resetCounts_single_frame {S} (env : Env S) (indet : Z) (fuel : nat)
    (e : t) (w : World S) :
  (9 <= fuel)%nat ->
  (forall mask, 0 < mask < 256 ->
     exists now r e' w' evs,
       resetCounts env indet fuel mask e w = Some (tt, e', w') /\
       trace w' = trace w ++ gate (unit e) now r ++ evs /\
       map fst evs =
         write_frame (unit e) (64 + trailing_zeros mask) (flag_bytes mask) /\
       bus_calls (gate (unit e) now r ++ evs) =
         write_frame (unit e) (64 + trailing_zeros mask) (flag_bytes mask) /\
       Z.testbit mask (trailing_zeros mask) = true /\
       (forall j, 0 <= j < trailing_zeros mask -> Z.testbit mask j = false) /\
       Z.of_nat (length (flag_bytes mask)) = Z.log2 mask - trailing_zeros mask + 1) /\
  resetCounts env indet fuel 0 e w = Some (tt, e, w) /\
  trailing_zeros 5 = 0 /\ flag_bytes 5 = [1; 0; 1].
Proof.
  intros Hfuel. split; [|split; [reflexivity|split; reflexivity]].
  intros mask Hmask. destruct mask as [|p|p]; try lia.
  pose proof (size_nat_bound p 8 ltac:(cbn; lia)) as Hsz.
  pose proof (ctz_pos_bound p) as Hctz.
  pose proof (strip_size p) as Hstrip.
  pose proof (trailing_zeros_lowest p) as [Hlow Hbelow].
  unfold resetCounts. change (negb (Z.pos p =? 0)) with true. cbv iota.
  rewrite (find_start_pos p fuel 64) by lia. rewrite shiftr_ctz.
  change 0 with (Z.of_nat 0) at 1.
  rewrite (set_flags_pos (strip p) fuel (replicate 8 (u8 indet)) 0)
    by (rewrite ?length_replicate; lia).
  cbn [take app Nat.add].
  remember (bits_pos (strip p) ++
            drop (Pos.size_nat (strip p)) (replicate 8 (u8 indet))) as chList eqn:Hch.
  assert (Hlen : (Z.to_nat (Z.of_nat (Pos.size_nat (strip p))) <= length chList)%nat).
  { rewrite Hch, length_app, bits_pos_length. lia. }
  destruct (UnitFacts.writeBytes_spec env (64 + ctz_pos p)
              (Z.of_nat (Pos.size_nat (strip p))) chList (unit e) w Hlen)
    as (now & r & rb & rw & rv & re & w' & Hrun & Htr).
  assert (Htake : take (Z.to_nat (Z.of_nat (Pos.size_nat (strip p)))) chList
                  = flag_bytes (Z.pos p)).
  { rewrite Hch, Nat2Z.id, flag_bytes_strip.
    rewrite take_app_length' by (symmetry; apply bits_pos_length). reflexivity. }
  rewrite Htake in Htr.
  exists now, r. eexists _, w', _.
  split; [apply (lift_step unit (fun u e => mk u (encValues e)) _ _ _ _ _ _ Hrun)|].
  split; [exact Htr|]. cbn [trailing_zeros].
  split; [reflexivity|].
  split; [rewrite UnitFacts.bus_calls_app, UnitFacts.bus_calls_gate; reflexivity|].
  split; [exact Hlow|]. split; [exact Hbelow|].
  rewrite flag_bytes_strip, bits_pos_length, log2_size. lia.
Qed.

(** Witness for C2: the mask 0b10100000 on the simulated bus. *)
Lemma resetCounts_single_frame_witness :
  (9 <= 9)%nat /\
  bus_calls (events (resetCounts Sim.handler 0 9 160 Fixture.encoder Fixture.encoder_bus))
    = write_frame (unit Fixture.encoder) 69 [1; 0; 1].
Proof.
  assert (Hf : (9 <= 9)%nat) by lia.
  split; [exact Hf|].
  destruct (proj1 (resetCounts_single_frame Sim.handler 0 9 Fixture.encoder
                     Fixture.encoder_bus Hf) 160 ltac:(lia))
    as (now & r & e' & w' & evs & Hrun & Htr & _ & Hbus & _).
  rewrite Hrun. cbn [events]. rewrite Htr. cbn [Fixture.encoder_bus Sim.world trace app].
  rewrite Hbus. reflexivity.
Defined.

(** *** [getButton] *)

Section Buttons.
Context {S : Type} (env : Env S).

Lemma button_loop_gated (indet : Z) (k : nat) : forall (ch ret : Z) (e : t) (w : World S),
  exists x e' w' segs,
    button_loop env indet k ch ret e w = Some (x, e', w') /\
    trace w' = trace w ++ concat segs /\
    length segs = k /\
    Forall (gated_read (unit e) (u8 (80 + ch))) segs /\
    same_target (unit e) (unit e') /\
    encValues e' = encValues e.
Proof.
  induction k as [|k IH]; intros ch ret e w.
  - exists ret, e, w, []. cbn. rewrite app_nil_r. done.
  - cbn [button_loop].
    destruct (UnitFacts.getByte_gated env indet (u8 (80 + ch)) (unit e) w)
      as (b & u1 & w1 & seg & Hrun & Htr & Hg & Hs).
    mstep (lift_step unit (fun u e => mk u (encValues e)) _ _ _ _ _ _ Hrun).
    destruct (IH ch (u8 (Z.lor (Z.shiftl ret 1) (if b =? 0 then 1 else 0)))
                (mk u1 (encValues e)) w1)
      as (x & e' & w' & segs & Hrun' & Htr' & Hlen & Hall & Hs' & He).
    exists x, e', w', (seg :: segs). split; [exact Hrun'|]. split_and!.
    + rewrite Htr', Htr. cbn [concat]. rewrite <- app_assoc. reflexivity.
    + cbn. lia.
    + constructor; [exact Hg|].
      eapply Forall_impl; [|exact Hall]. intros sg Hsg.
      eapply UnitFacts.same_target_gated; [|exact Hsg]. exact Hs.
    + eapply UnitFacts.same_target_trans; [exact Hs|exact Hs'].
    + exact He.
Qed.

End Buttons.

(** C4, the code at the failing input.  Every one of the eight reads of
    [getButton (-1)] addresses register 0x4F: the loop passes [ch], which
    is -1, where the loop counter was meant.  On the simulated encoder
    whose button 0 is pressed (register 0x50 reads 0) while register 0x4F
    reads 1, [getButtons] returns 0, not the bitmap 0b00000001. *)
Theorem getButtons_reads_0x4F :
  (forall S (env : Env S) (indet : Z) (e : t) (w : World S),
     exists x e' w' segs,
       getButton env indet (-1) e w = Some (x, e', w') /\
       trace w' = trace w ++ concat segs /\
       length segs = 8%nat /\
       Forall (gated_read (unit e) 79) segs) /\
  Sim.d_regs (dev Fixture.encoder_bus) 80 = 0 /\
  result (getButtons Sim.handler 0 Fixture.encoder Fixture.encoder_bus) = Some 0 /\
  bus_calls (events (getButton Sim.handler 0 0 Fixture.encoder Fixture.encoder_bus))
    = [BeginTransmission Wire 65; WireWrite Wire 80; EndTransmission Wire;
       RequestFrom Wire 65 1; WireRead Wire] /\
  result (getButton Sim.handler 0 0 Fixture.encoder Fixture.encoder_bus) = Some 1.
Proof.
  split_and!.
  - intros S env indet e w.
    destruct (button_loop_gated env indet 8 (-1) 0 e w)
      as (x & e' & w' & segs & Hrun & Htr & Hlen & Hall & _).
    exists x, e', w', segs. done.
  - reflexivity.
  - vm_compute. reflexivity.
  - vm_compute. reflexivity.
  - vm_compute. reflexivity.
Qed.

End EncoderFacts.

(** ** The LED delay gate across the units *)

Module TimingFacts.
Import Obs.

Section Facts.
Context {S : Type} (env : Env S).

Lemma one_gated_read (u : M5w_Unit.t) (reg : Z) (old new seg : list Event) :
  new = old ++ seg -> gated_read u reg seg -> gated_reads u old new.
Proof.
  intros -> Hg. exists [seg]. cbn. rewrite app_nil_r.
  split; [reflexivity|]. split; [discriminate|]. constructor; [|constructor].
  exists reg. exact Hg.
Qed.

Lemma angle_writeLED_spec (led colour : Z) (a : M5w_8angle.t) (w : World S) :
  exists now r rb rw rv re stamp a' w',
    M5w_8angle.writeLED env led colour a w = Some (tt, a', w') /\
    trace w' = trace w ++
      led_write (M5w_8angle.unit a) (u8 (led * 4 + 48)) (le_bytes 4 colour)
        now r rb rw rv re stamp /\
    M5w_8angle.unit a' =
      M5w_Unit.set_lastLEDtime (u32 stamp)
        (M5w_Unit.set_endError (u8 re) (M5w_8angle.unit a)) /\
    M5w_8angle.potValues a' = M5w_8angle.potValues a /\
    M5w_8angle.hooks a' = M5w_8angle.hooks a.
Proof.
  destruct (UnitFacts.writeBytes_spec env (u8 (led * 4 + 48)) 4 (le_bytes 4 colour)
              (M5w_8angle.unit a) w ltac:(cbn; lia))
    as (now & r & rb & rw & rv & re & w1 & Hrun & Htr).
  exists now, r, rb, rw, rv, re, (env Micros (dev w1)).1.
  unfold M5w_8angle.writeLED.
  mstep (lift_step M5w_8angle.unit
           (fun u a => M5w_8angle.mk u (M5w_8angle.potValues a) (M5w_8angle.hooks a))
           _ _ _ _ _ _ Hrun).
  unfold M5w_8angle.base, lift, M5w_Unit.micros, modify, bind, pure.
  rewrite call_step. cbn [fst snd M5w_8angle.unit M5w_8angle.potValues M5w_8angle.hooks].
  eexists _, _. split; [reflexivity|]. cbn [trace].
  split; [|done]. rewrite Htr. unfold led_write.
  change (take (Z.to_nat 4) (le_bytes 4 colour)) with (le_bytes 4 colour).
  rewrite <- !app_assoc. reflexivity.
Qed.

Lemma encoder_writeLED_spec (led colour : Z) (e : M5w_8encoder.t) (w : World S) :
  exists now r rb rw rv re stamp e' w',
    M5w_8encoder.writeLED env led colour e w = Some (tt, e', w') /\
    trace w' = trace w ++
      led_write (M5w_8encoder.unit e) (u8 (led * 3 + 112)) (le_bytes 3 colour)
        now r rb rw rv re stamp /\
    M5w_8encoder.unit e' =
      M5w_Unit.set_lastLEDtime (u32 stamp)
        (M5w_Unit.set_endError (u8 re) (M5w_8encoder.unit e)) /\
    M5w_8encoder.encValues e' = M5w_8encoder.encValues e.
Proof.
  destruct (UnitFacts.writeBytes_spec env (u8 (led * 3 + 112)) 3 (le_bytes 4 colour)
              (M5w_8encoder.unit e) w ltac:(cbn; lia))
    as (now & r & rb & rw & rv & re & w1 & Hrun & Htr).
  exists now, r, rb, rw, rv, re, (env Micros (dev w1)).1.
  unfold M5w_8encoder.writeLED.
  mstep (lift_step M5w_8encoder.unit
           (fun u e => M5w_8encoder.mk u (M5w_8encoder.encValues e))
           _ _ _ _ _ _ Hrun).
  unfold M5w_8encoder.base, lift, M5w_Unit.micros, modify, bind, pure.
  rewrite call_step. cbn [fst snd M5w_8encoder.unit M5w_8encoder.encValues].
  eexists _, _. split; [reflexivity|]. cbn [trace].
  split; [|done]. rewrite Htr. unfold led_write.
  change (take (Z.to_nat 3) (le_bytes 4 colour)) with (le_bytes 3 colour).
  rewrite <- !app_assoc. reflexivity.
Qed.

(** The gate of a unit stamped at [stamp], seen from the caller. *)
Lemma gate_after_stamp (u u1 : M5w_Unit.t) (stamp re now r : Z) :
  0 <= M5w_Unit.LEDdelay u < 4294967296 ->
  u1 = M5w_Unit.set_lastLEDtime (u32 stamp) (M5w_Unit.set_endError re u) ->
  let el := u32 (u32 now - u32 stamp) in
  gate u1 now r =
    (Micros, now) ::
    (if el <? M5w_Unit.LEDdelay u
     then [(DelayMicroseconds (M5w_Unit.LEDdelay u - el), r)] else []) /\
  0 <= el.
Proof.
  intros Hd -> el. unfold gate, elapsed. cbn [M5w_Unit.set_lastLEDtime
    M5w_Unit.set_endError M5w_Unit.lastLEDtime M5w_Unit.LEDdelay].
  fold el.
  assert (0 <= el) by (apply Z.mod_pos_bound; lia).
  split; [|assumption].
  destruct (Z.ltb_spec el (M5w_Unit.LEDdelay u)); [|reflexivity].
  unfold u32 at 1. rewrite Z.mod_small by lia. reflexivity.
Qed.

End Facts.

(** C10.  The gate reads the clock and, when less than [LEDdelay] has
    elapsed since [lastLEDtime], delays the caller for the remainder.
    Every [readBytes] call returns (given a buffer of [n] bytes), starts
    with the gate before it begins its transmission, makes no other clock
    or delay call, and keeps [lastLEDtime]; so do [getByte], [getLong],
    [getPot16], [getCount], [getIncrement], [getButton] and both
    [getSwitch], each of which consists of such reads only. *)
Theorem reads_pass_the_delay_gate {S} (env : Env S) (indet : Z) :
  (forall u now r,
     gate u now r =
       (Micros, now) ::
       (if elapsed u now <? M5w_Unit.LEDdelay u
        then [(DelayMicroseconds (u32 (M5w_Unit.LEDdelay u - elapsed u now)), r)]
        else []) /\
     (0 <= M5w_Unit.LEDdelay u < 4294967296 ->
      elapsed u now < M5w_Unit.LEDdelay u ->
      u32 (M5w_Unit.LEDdelay u - elapsed u now)
        = M5w_Unit.LEDdelay u - elapsed u now)) /\
  (forall reg n value u (w : World S),
     (Z.to_nat n <= length value)%nat ->
     exists res u' w' seg,
       M5w_Unit.readBytes env reg value n u w = Some (res, u', w') /\
       trace w' = trace w ++ seg /\
       gated_read u reg seg /\
       M5w_Unit.lastLEDtime u' = M5w_Unit.lastLEDtime u) /\
  (forall reg u (w : World S),
     (exists x u' w',
        M5w_Unit.getByte env indet reg u w = Some (x, u', w') /\
        gated_reads u (trace w) (trace w') /\
        M5w_Unit.lastLEDtime u' = M5w_Unit.lastLEDtime u) /\
     (exists x u' w',
        M5w_Unit.getLong env indet reg u w = Some (x, u', w') /\
        gated_reads u (trace w) (trace w') /\
        M5w_Unit.lastLEDtime u' = M5w_Unit.lastLEDtime u)) /\
  (forall ch h s (a : M5w_8angle.t) (w : World S),
     0 <= ch -> HookTable.channel a ch = Some (h, s) ->
     exists x a' w',
       M5w_8angle.getPot16 env ch a w = Some (x, a', w') /\
       gated_reads (M5w_8angle.unit a) (trace w) (trace w') /\
       M5w_Unit.lastLEDtime (M5w_8angle.unit a')
         = M5w_Unit.lastLEDtime (M5w_8angle.unit a)) /\
  (forall (a : M5w_8angle.t) (w : World S),
     exists x a' w',
       M5w_8angle.getSwitch env indet a w = Some (x, a', w') /\
       gated_reads (M5w_8angle.unit a) (trace w) (trace w') /\
       M5w_Unit.lastLEDtime (M5w_8angle.unit a')
         = M5w_Unit.lastLEDtime (M5w_8angle.unit a)) /\
  (forall ch (e : M5w_8encoder.t) (w : World S),
     forall op, In op [M5w_8encoder.getCount env indet ch;
                       M5w_8encoder.getIncrement env indet ch;
                       M5w_8encoder.getButton env indet ch;
                       M5w_8encoder.getButtons env indet;
                       M5w_8encoder.getSwitch env indet] ->
     exists x e' w',
       op e w = Some (x, e', w') /\
       gated_reads (M5w_8encoder.unit e) (trace w) (trace w') /\
       M5w_Unit.lastLEDtime (M5w_8encoder.unit e')
         = M5w_Unit.lastLEDtime (M5w_8encoder.unit e)).
Proof.
  assert (Hlong : forall reg (e : M5w_8encoder.t) (w : World S),
            exists x e' w',
              M5w_8encoder.base (M5w_Unit.getLong env indet reg) e w = Some (x, e', w') /\
              gated_reads (M5w_8encoder.unit e) (trace w) (trace w') /\
              M5w_Unit.lastLEDtime (M5w_8encoder.unit e')
                = M5w_Unit.lastLEDtime (M5w_8encoder.unit e)).
  { intros reg e w.
    destruct (UnitFacts.getLong_gated env indet reg (M5w_8encoder.unit e) w)
      as (x & u' & w' & seg & Hrun & Htr & Hg & (_ & _ & Hl & _)).
    eexists x, _, w'. split; [apply lift_step; exact Hrun|].
    split; [exact (one_gated_read _ _ _ _ _ Htr Hg)|exact Hl]. }
  assert (Hbyte : forall reg (e : M5w_8encoder.t) (w : World S),
            exists x e' w',
              M5w_8encoder.base (M5w_Unit.getByte env indet reg) e w = Some (x, e', w') /\
              gated_reads (M5w_8encoder.unit e) (trace w) (trace w') /\
              M5w_Unit.lastLEDtime (M5w_8encoder.unit e')
                = M5w_Unit.lastLEDtime (M5w_8encoder.unit e)).
  { intros reg e w.
    destruct (UnitFacts.getByte_gated env indet reg (M5w_8encoder.unit e) w)
      as (x & u' & w' & seg & Hrun & Htr & Hg & (_ & _ & Hl & _)).
    eexists x, _, w'. split; [apply lift_step; exact Hrun|].
    split; [exact (one_gated_read _ _ _ _ _ Htr Hg)|exact Hl]. }
  assert (Hloop : forall ch (e : M5w_8encoder.t) (w : World S),
            exists x e' w',
              M5w_8encoder.button_loop env indet 8 ch 0 e w = Some (x, e', w') /\
              gated_reads (M5w_8encoder.unit e) (trace w) (trace w') /\
              M5w_Unit.lastLEDtime (M5w_8encoder.unit e')
                = M5w_Unit.lastLEDtime (M5w_8encoder.unit e)).
  { intros ch e w.
    destruct (EncoderFacts.button_loop_gated env indet 8 ch 0 e w)
      as (x & e' & w' & segs & Hrun & Htr & Hlen & Hall & (_ & _ & Hl & _) & _).
    exists x, e', w'. split; [exact Hrun|]. split; [|exact Hl].
    exists segs. split; [exact Htr|]. split.
    - intros ->. discriminate Hlen.
    - eapply Forall_impl; [|exact Hall]. intros sg Hsg. eexists. exact Hsg. }
  split_and!.
  - intros u now r. split; [reflexivity|].
    intros Hd He. apply (UnitFacts.gate_remainder u now Hd He).
  - intros reg n value u w Hn.
    destruct (UnitFacts.readBytes_gated env reg n value u w Hn)
      as (res & u' & w' & seg & Hrun & Htr & Hg & (_ & _ & Hl & _)).
    exists res, u', w', seg. done.
  - intros reg u w. split.
    + destruct (UnitFacts.getByte_gated env indet reg u w)
        as (x & u' & w' & seg & Hrun & Htr & Hg & (_ & _ & Hl & _)).
      exists x, u', w'. split; [exact Hrun|].
      split; [exact (one_gated_read _ _ _ _ _ Htr Hg)|exact Hl].
    + destruct (UnitFacts.getLong_gated env indet reg u w)
        as (x & u' & w' & seg & Hrun & Htr & Hg & (_ & _ & Hl & _)).
      exists x, u', w'. split; [exact Hrun|].
      split; [exact (one_gated_read _ _ _ _ _ Htr Hg)|exact Hl].
  - intros ch h s a w Hch Hc. apply AngleFacts.channel_lookup in Hc as [Hh Hs].
    destruct (AngleFacts.getPot16_spec env ch s h a w Hch Hs Hh)
      as (now & r & st & buf & u' & w' & evs & Hrun & _ & _ & _ & Hget).
    destruct (UnitFacts.readBytes_gated env (u8 (0 + ch * 2)) 2 (le_bytes 2 s)
                (M5w_8angle.unit a) w ltac:(cbn; lia))
      as (res & u2 & w2 & seg & Hrun2 & Htr & Hg & (_ & _ & Hl & _)).
    rewrite Hrun in Hrun2. injection Hrun2 as <- <- <-.
    eexists _, _, w'. split; [exact Hget|].
    split; [exact (one_gated_read _ _ _ _ _ Htr Hg)|exact Hl].
  - intros a w.
    destruct (UnitFacts.getByte_gated env indet 32 (M5w_8angle.unit a) w)
      as (x & u' & w' & seg & Hrun & Htr & Hg & (_ & _ & Hl & _)).
    eexists x, _, w'. split; [apply lift_step; exact Hrun|].
    split; [exact (one_gated_read _ _ _ _ _ Htr Hg)|exact Hl].
  - intros ch e w op Hop. cbn [In] in Hop.
    destruct Hop as [<-|[<-|[<-|[<-|[<-|[]]]]]].
    + apply Hlong.
    + apply Hlong.
    + unfold M5w_8encoder.getButton. destruct (ch >=? 0); [|apply Hloop].
      destruct (Hbyte (u8 (80 + ch)) e w) as (b & e' & w' & Hrun & Hg & Hl).
      eexists _, e', w'. split; [|done].
      rewrite (bind_step _ _ _ _ _ _ _ Hrun). reflexivity.
    + unfold M5w_8encoder.getButtons, M5w_8encoder.getButton.
      change (-1 >=? 0) with false. cbv iota. apply Hloop.
    + apply Hbyte.
Qed.

(** Witness for C10: a two-byte read on the simulated angle unit. *)
Lemma reads_pass_the_delay_gate_witness :
  (Z.to_nat 2 <= length [0; 0])%nat /\
  exists res u' w' seg,
    M5w_Unit.readBytes Sim.handler 6 [0; 0] 2 (M5w_8angle.unit Fixture.angle)
      Fixture.angle_bus = Some (res, u', w') /\
    gated_read (M5w_8angle.unit Fixture.angle) 6 seg.
Proof.
  assert (Hn : (Z.to_nat 2 <= length [0; 0])%nat) by (cbn; lia).
  split; [exact Hn|].
  destruct (proj1 (proj2 (reads_pass_the_delay_gate Sim.handler 0))
              6 2 [0; 0] (M5w_8angle.unit Fixture.angle) Fixture.angle_bus Hn)
    as (res & u' & w' & seg & Hrun & _ & Hg & _).
  exists res, u', w', seg. split; [exact Hrun|exact Hg].
Defined.

(** C5.  After a [writeLED] call, [lastLEDtime] is the clock value read
    at the end of that call.  A second [writeLED] on the same unit reads
    the clock first; with [el] the time elapsed since the stamp, if
    [el < LEDdelay] it calls [delayMicroseconds (LEDdelay - el)] before it
    begins its bus transaction, and otherwise begins it at once.  Register
    writes that are not LED writes ([writeBytes], [setAddress],
    [resetCounts]) leave [lastLEDtime] unchanged; a new unit has
    [LEDdelay] 80. *)
Theorem consecutive_writeLED_spacing {S} (env : Env S) :
  (forall led1 c1 led2 c2 (a : M5w_8angle.t) (w : World S),
     let u := M5w_8angle.unit a in
     0 <= M5w_Unit.LEDdelay u < 4294967296 ->
     exists now1 r1 rb1 rw1 rv1 re1 stamp a1 w1,
       M5w_8angle.writeLED env led1 c1 a w = Some (tt, a1, w1) /\
       trace w1 = trace w ++
         led_write u (u8 (led1 * 4 + 48)) (le_bytes 4 c1)
           now1 r1 rb1 rw1 rv1 re1 stamp /\
       M5w_Unit.lastLEDtime (M5w_8angle.unit a1) = u32 stamp /\
       exists now r rb rw rv re stamp2 a2 w2,
         M5w_8angle.writeLED env led2 c2 a1 w1 = Some (tt, a2, w2) /\
         let el := u32 (u32 now - u32 stamp) in
         0 <= el /\
         trace w2 = trace w1 ++
           (Micros, now) ::
           (if el <? M5w_Unit.LEDdelay u
            then [(DelayMicroseconds (M5w_Unit.LEDdelay u - el), r)] else []) ++
           [(BeginTransmission (M5w_Unit.wire u) (M5w_Unit.addr u), rb);
            (WireWrite (M5w_Unit.wire u) (u8 (led2 * 4 + 48)), rw);
            (WireWriteBuf (M5w_Unit.wire u) (le_bytes 4 c2), rv);
            (EndTransmission (M5w_Unit.wire u), re);
            (Micros, stamp2)]) /\
  (forall led1 c1 led2 c2 (e : M5w_8encoder.t) (w : World S),
     let u := M5w_8encoder.unit e in
     0 <= M5w_Unit.LEDdelay u < 4294967296 ->
     exists now1 r1 rb1 rw1 rv1 re1 stamp e1 w1,
       M5w_8encoder.writeLED env led1 c1 e w = Some (tt, e1, w1) /\
       trace w1 = trace w ++
         led_write u (u8 (led1 * 3 + 112)) (le_bytes 3 c1)
           now1 r1 rb1 rw1 rv1 re1 stamp /\
       M5w_Unit.lastLEDtime (M5w_8encoder.unit e1) = u32 stamp /\
       exists now r rb rw rv re stamp2 e2 w2,
         M5w_8encoder.writeLED env led2 c2 e1 w1 = Some (tt, e2, w2) /\
         let el := u32 (u32 now - u32 stamp) in
         0 <= el /\
         trace w2 = trace w1 ++
           (Micros, now) ::
           (if el <? M5w_Unit.LEDdelay u
            then [(DelayMicroseconds (M5w_Unit.LEDdelay u - el), r)] else []) ++
           [(BeginTransmission (M5w_Unit.wire u) (M5w_Unit.addr u), rb);
            (WireWrite (M5w_Unit.wire u) (u8 (led2 * 3 + 112)), rw);
            (WireWriteBuf (M5w_Unit.wire u) (le_bytes 3 c2), rv);
            (EndTransmission (M5w_Unit.wire u), re);
            (Micros, stamp2)]) /\
  (forall reg value n newAddr (u u' : M5w_Unit.t) (w w' : World S),
     M5w_Unit.writeBytes env reg value n u w = Some (tt, u', w') \/
     M5w_Unit.setAddress env newAddr u w = Some (tt, u', w') ->
     M5w_Unit.lastLEDtime u' = M5w_Unit.lastLEDtime u) /\
  (forall indet fuel mask (e e' : M5w_8encoder.t) (w w' : World S),
     M5w_8encoder.resetCounts env indet fuel mask e w = Some (tt, e', w') ->
     M5w_Unit.lastLEDtime (M5w_8encoder.unit e')
       = M5w_Unit.lastLEDtime (M5w_8encoder.unit e)) /\
  (forall ad bus junk, M5w_Unit.LEDdelay (M5w_Unit.new ad bus junk) = 80).
Proof.
  assert (Hwb : forall reg value n (u u' : M5w_Unit.t) (w w' : World S),
            M5w_Unit.writeBytes env reg value n u w = Some (tt, u', w') ->
            M5w_Unit.lastLEDtime u' = M5w_Unit.lastLEDtime u).
  { intros reg value n u u' w w' H.
    destruct (Nat.leb_spec (Z.to_nat n) (length value)) as [Hn|Hn].
    - destruct (UnitFacts.writeBytes_spec env reg n value u w Hn)
        as (now & r & rb & rw & rv & re & w1 & Hrun & _).
      rewrite Hrun in H. injection H as <- _. reflexivity.
    - exfalso. unfold M5w_Unit.writeBytes in H.
      destruct (UnitFacts.addDelayIfNeeded_spec env u w) as (now & r & w1 & Hg & _).
      rewrite (bind_step _ _ _ _ _ _ _ Hg) in H.
      unfold get, M5w_Unit.beginTransmission, M5w_Unit.wire_write, bind, pure in H.
      rewrite !call_step in H. cbn [fst snd] in H.
      destruct (Nat.leb_spec (Z.to_nat n) (length value)); [lia|].
      unfold undefined in H. discriminate H. }
  split_and!.
  - intros led1 c1 led2 c2 a w u Hd.
    destruct (angle_writeLED_spec env led1 c1 a w)
      as (now1 & r1 & rb1 & rw1 & rv1 & re1 & stamp & a1 & w1 & Hrun1 & Htr1 & Hu1 & _).
    exists now1, r1, rb1, rw1, rv1, re1, stamp, a1, w1.
    split; [exact Hrun1|]. split; [exact Htr1|].
    split; [rewrite Hu1; reflexivity|].
    destruct (angle_writeLED_spec env led2 c2 a1 w1)
      as (now & r & rb & rw & rv & re & stamp2 & a2 & w2 & Hrun2 & Htr2 & _).
    exists now, r, rb, rw, rv, re, stamp2, a2, w2.
    split; [exact Hrun2|].
    destruct (gate_after_stamp u (M5w_8angle.unit a1) stamp (u8 re1) now r Hd Hu1)
      as [Hgate Hel].
    split; [exact Hel|].
    rewrite Htr2. unfold led_write. rewrite Hgate, Hu1. reflexivity.
  - intros led1 c1 led2 c2 e w u Hd.
    destruct (encoder_writeLED_spec env led1 c1 e w)
      as (now1 & r1 & rb1 & rw1 & rv1 & re1 & stamp & e1 & w1 & Hrun1 & Htr1 & Hu1 & _).
    exists now1, r1, rb1, rw1, rv1, re1, stamp, e1, w1.
    split; [exact Hrun1|]. split; [exact Htr1|].
    split; [rewrite Hu1; reflexivity|].
    destruct (encoder_writeLED_spec env led2 c2 e1 w1)
      as (now & r & rb & rw & rv & re & stamp2 & e2 & w2 & Hrun2 & Htr2 & _).
    exists now, r, rb, rw, rv, re, stamp2, e2, w2.
    split; [exact Hrun2|].
    destruct (gate_after_stamp u (M5w_8encoder.unit e1) stamp (u8 re1) now r Hd Hu1)
      as [Hgate Hel].
    split; [exact Hel|].
    rewrite Htr2. unfold led_write. rewrite Hgate, Hu1. reflexivity.
  - intros reg value n newAddr u u' w w' [H|H]; [exact (Hwb _ _ _ _ _ _ _ H)|].
    unfold M5w_Unit.setAddress, bind in H.
    destruct (M5w_Unit.writeBytes env 255 [newAddr] 1 u w) as [[[[] u1] w1]|] eqn:E;
      [|discriminate].
    unfold modify in H. injection H as <- _. cbn. exact (Hwb _ _ _ _ _ _ _ E).
  - intros indet fuel mask e e' w w' H.
    unfold M5w_8encoder.resetCounts in H.
    destruct (negb (mask =? 0)); [|injection H as <- _; reflexivity].
    destruct (M5w_8encoder.find_start fuel mask 64) as [[m reg]|]; [|discriminate].
    destruct (M5w_8encoder.set_flags fuel m _ 0) as [[chList len]|]; [|discriminate].
    unfold M5w_8encoder.base, lift in H.
    destruct (M5w_Unit.writeBytes env reg chList len (M5w_8encoder.unit e) w)
      as [[[[] u1] w1]|] eqn:E; [|discriminate].
    injection H as <- _. cbn. exact (Hwb _ _ _ _ _ _ _ E).
  - reflexivity.
Qed.

(** Witness for C5: two LED writes back to back on the simulated
    encoder, whose [LEDdelay] is the default 80. *)
Lemma consecutive_writeLED_spacing_witness :
  0 <= M5w_Unit.LEDdelay (M5w_8encoder.unit Fixture.encoder) < 4294967296 /\
  exists e1 w1 e2 w2 stamp,
    M5w_8encoder.writeLED Sim.handler 1 1122867 Fixture.encoder Fixture.encoder_bus
      = Some (tt, e1, w1) /\
    M5w_Unit.lastLEDtime (M5w_8encoder.unit e1) = u32 stamp /\
    M5w_8encoder.writeLED Sim.handler 2 4478310 e1 w1 = Some (tt, e2, w2).
Proof.
  assert (Hd : 0 <= M5w_Unit.LEDdelay (M5w_8encoder.unit Fixture.encoder)
               < 4294967296) by (cbn; lia).
  split; [exact Hd|].
  destruct (proj1 (proj2 (consecutive_writeLED_spacing Sim.handler))
              1 1122867 2 4478310 Fixture.encoder Fixture.encoder_bus Hd)
    as (now1 & r1 & rb1 & rw1 & rv1 & re1 & stamp & e1 & w1 & Hrun1 & Htr1 & Hst
        & now & r & rb & rw & rv & re & stamp2 & e2 & w2 & Hrun2 & Hel & Htr2).
  exists e1, w1, e2, w2, stamp. split; [exact Hrun1|]. split; [exact Hst|exact Hrun2].
Defined.

(** The second of two back-to-back LED writes on the simulated encoder:
    the clock still reads the stamp 1450, and the call waits the full 80
    microseconds before it begins its transmission. *)
Lemma writeLED_back_to_back_on_sim :
  events ((M5w_8encoder.writeLED Sim.handler 1 1122867 ;;
           M5w_8encoder.writeLED Sim.handler 2 4478310)
            Fixture.encoder Fixture.encoder_bus)
  = [(Micros, 1000); (BeginTransmission Wire 65, 0); (WireWrite Wire 115, 1);
     (WireWriteBuf Wire [51; 34; 17], 3); (EndTransmission Wire, 0);
     (Micros, 1450);
     (Micros, 1450); (DelayMicroseconds 80, 0);
     (BeginTransmission Wire 65, 0); (WireWrite Wire 118, 1);
     (WireWriteBuf Wire [102; 85; 68], 3); (EndTransmission Wire, 0);
     (Micros, 1980)].
Proof. vm_compute. reflexivity. Qed.

End TimingFacts.

(** * Further properties of the code *)

(** ** The register transport *)

Module TransportFacts.
Import M5w_Unit Obs.

(** X1.  [begin] opens the bus, waits 10 ms and issues an empty
    addressed transmission, without passing the LED gate; it stores the
    status byte in [error], so that [operator bool] holds exactly when the
    status is 0.  No other operation of the transport changes [error]:
    the flag keeps the result of [begin] whatever later transactions
    return. *)
Theorem liveness_flag_only_set_by_begin {S} (env : Env S) (indet : Z) (u : t)
    (w : World S) :
  (exists r1 r2 r3 re w',
     begin env u w = Some (tt, set_error (u8 re) u, w') /\
     trace w' = trace w ++
       [(WireBegin (wire u), r1); (Delay 10, r2);
        (BeginTransmission (wire u) (addr u), r3);
        (EndTransmission (wire u), re)] /\
     (to_bool (set_error (u8 re) u) = true <-> u8 re = 0) /\
     endError (set_error (u8 re) u) = endError u) /\
  (forall reg value n newAddr x y u' w',
     readBytes env reg value n u w = Some (x, u', w') \/
     writeBytes env reg value n u w = Some (tt, u', w') \/
     getByte env indet reg u w = Some (y, u', w') \/
     getLong env indet reg u w = Some (y, u', w') \/
     setAddress env newAddr u w = Some (tt, u', w') ->
     error u' = error u /\ to_bool u' = to_bool u).
Proof.
  assert (Hrd : forall reg value n x u' w',
            readBytes env reg value n u w = Some (x, u', w') -> error u' = error u).
  { intros reg value n x u' w' H.
    unfold readBytes in H.
    destruct (UnitFacts.addDelayIfNeeded_spec env u w) as (now & r & w1 & Hg & _).
    rewrite (bind_step _ _ _ _ _ _ _ Hg) in H.
    unfold get, beginTransmission, wire_write, endTransmission, requestFrom,
      modify, bind, pure in H.
    rewrite !call_step in H. cbn [dev trace fst snd] in H.
    destruct (u8 _ =? 0).
    - rewrite call_step in H. cbn [dev trace fst snd] in H.
      destruct (negb _).
      + match type of H with
        | context [read_loop env ?k ?i ?v ?st ?ww] =>
            destruct (read_loop env k i v st ww) as [[[v' u1] w2]|] eqn:E
        end; [|discriminate].
        injection H as _ <- _.
        assert (Hloop : forall k i v st ww v' st' ww',
                  read_loop env k i v st ww = Some (v', st', ww') -> st' = st).
        { clear. induction k as [|k IH]; intros i v st ww v' st' ww' H.
          - injection H as _ <- _. reflexivity.
          - cbn [read_loop] in H. unfold wire_read, bind in H.
            rewrite call_step in H. destruct (_ <? _)%nat; [|discriminate].
            apply IH in H. exact H. }
        apply Hloop in E. subst u1. reflexivity.
      + injection H as _ <- _. reflexivity.
    - injection H as _ <- _. reflexivity. }
  assert (Hwr : forall reg value n u' w',
            writeBytes env reg value n u w = Some (tt, u', w') -> error u' = error u).
  { intros reg value n u' w' H.
    unfold writeBytes in H.
    destruct (UnitFacts.addDelayIfNeeded_spec env u w) as (now & r & w1 & Hg & _).
    rewrite (bind_step _ _ _ _ _ _ _ Hg) in H.
    unfold get, beginTransmission, wire_write, wire_write_buf, endTransmission,
      modify, bind, pure in H.
    rewrite !call_step in H. cbn [dev trace fst snd] in H.
    destruct (_ <=? _)%nat; [|discriminate].
    rewrite !call_step in H. cbn [dev trace fst snd] in H.
    injection H as <- _. reflexivity. }
  assert (Hflag : forall u', error u' = error u -> error u' = error u /\ to_bool u' = to_bool u).
  { intros u' H. split; [exact H|]. unfold to_bool. rewrite H. reflexivity. }
  split.
  - unfold begin, get, wire_begin, delay, beginTransmission, endTransmission,
      modify, bind, pure.
    rewrite !call_step. cbn [dev trace fst snd].
    eexists _, _, _, _, _. split; [reflexivity|]. cbn [trace].
    split; [rewrite <- !app_assoc; reflexivity|]. split; [|reflexivity].
    unfold to_bool. cbn [error set_error]. apply Z.eqb_eq.
  - intros reg value n newAddr x y u' w' [H|[H|[H|[H|H]]]]; apply Hflag.
    + exact (Hrd _ _ _ _ _ _ H).
    + exact (Hwr _ _ _ _ _ H).
    + unfold getByte, bind in H.
      destruct (readBytes env reg (le_bytes 1 indet) 1 u w) as [[[res u1] w1]|] eqn:E;
        [|discriminate].
      apply Hrd in E. destruct (negb _); injection H as _ <- _; exact E.
    + unfold getLong, bind in H.
      destruct (readBytes env reg (le_bytes 4 indet) 4 u w) as [[[res u1] w1]|] eqn:E;
        [|discriminate].
      apply Hrd in E. destruct (negb _); injection H as _ <- _; exact E.
    + unfold setAddress, bind in H.
      destruct (writeBytes env 255 [newAddr] 1 u w) as [[[[] u1] w1]|] eqn:E;
        [|discriminate].
      apply Hwr in E. unfold modify in H. injection H as <- _. exact E.
Qed.

(** X2.  [readBytes] never stores outside the first [n] bytes of the
    buffer: the buffer keeps its length and its bytes from index [n] on,
    every byte it stores is in 0..255, and on any non-zero status the
    buffer is handed back untouched. *)
Theorem readBytes_buffer_frame {S} (env : Env S) (reg n : Z) (value : list Z)
    (u : t) (w : World S) :
  (Z.to_nat n <= length value)%nat ->
  exists st buf u' w',
    readBytes env reg value n u w = Some ((st, buf), u', w') /\
    length buf = length value /\
    drop (Z.to_nat n) buf = drop (Z.to_nat n) value /\
    (Forall (fun b => 0 <= b < 256) (take (Z.to_nat n) buf) \/ buf = value) /\
    (st <> 0 -> buf = value).
Proof.
  intros Hn.
  destruct (UnitFacts.readBytes_spec env reg n value u w Hn)
    as (now & r & [st buf] & u' & w' & evs & Hrun & _ & Hout).
  exists st, buf, u', w'. split; [exact Hrun|].
  inversion Hout as [| |rb rw re rq rs He Hq Hrs]; subst.
  - split_and!; try done. by right.
  - split_and!; try done. by right.
  - split_and!; try done.
    + rewrite length_app, length_map, length_drop. lia.
    + rewrite drop_app_length'; [reflexivity|]. rewrite length_map. symmetry. exact Hrs.
    + left. rewrite take_app_length' by (rewrite length_map; symmetry; exact Hrs).
      apply Forall_fmap, Forall_true. intros x. apply Z.mod_pos_bound. lia.
Qed.

(** Witness for X2: a two-byte read into a four-byte buffer. *)
Lemma readBytes_buffer_frame_witness :
  (Z.to_nat 2 <= length [7; 8; 9; 10])%nat /\
  exists st buf u' w',
    readBytes Sim.handler 6 [7; 8; 9; 10] 2 (M5w_8angle.unit Fixture.angle)
      Fixture.angle_bus = Some ((st, buf), u', w') /\
    drop (Z.to_nat 2) buf = [9; 10].
Proof.
  assert (H : (Z.to_nat 2 <= length [7; 8; 9; 10])%nat) by (cbn; lia).
  split; [exact H|].
  destruct (readBytes_buffer_frame Sim.handler 6 2 [7; 8; 9; 10]
              (M5w_8angle.unit Fixture.angle) Fixture.angle_bus H)
    as (st & buf & u' & w' & Hrun & _ & Hdrop & _).
  exists st, buf, u', w'. split; [exact Hrun|exact Hdrop].
Defined.

(** X3.  The LED gate delays the caller by a positive amount of at most
    [LEDdelay] microseconds, namely [LEDdelay] less the elapsed time, and
    by nothing when [LEDdelay] is 0; the unit is left as it was. *)
Theorem gate_delay_bounded {S} (env : Env S) (u : t) (w : World S) :
  0 <= LEDdelay u < 4294967296 ->
  exists now r w',
    addDelayIfNeeded env u w = Some (tt, u, w') /\
    trace w' = trace w ++ gate u now r /\
    (forall d x, (DelayMicroseconds d, x) ∈ gate u now r ->
       0 < d <= LEDdelay u /\ d = LEDdelay u - elapsed u now) /\
    (forall c x, (c, x) ∈ gate u now r -> is_bus c = false) /\
    (LEDdelay u = 0 -> gate u now r = [(Micros, now)]).
Proof.
  intros Hd.
  destruct (UnitFacts.addDelayIfNeeded_spec env u w) as (now & r & w' & Hrun & Htr).
  exists now, r, w'. split; [exact Hrun|]. split; [exact Htr|].
  assert (Hel : 0 <= elapsed u now) by (apply Z.mod_pos_bound; lia).
  unfold gate. destruct (Z.ltb_spec (elapsed u now) (LEDdelay u)) as [Hlt|Hge].
  - destruct (UnitFacts.gate_remainder u now Hd Hlt) as [Hrem _].
    split_and!.
    + intros d x Hin. apply elem_of_cons in Hin as [Hin|Hin]; [discriminate Hin|].
      apply list_elem_of_singleton in Hin. injection Hin as -> _.
      rewrite Hrem. lia.
    + intros c x Hin. apply elem_of_cons in Hin as [Hin|Hin].
      * injection Hin as -> _. reflexivity.
      * apply list_elem_of_singleton in Hin. injection Hin as -> _. reflexivity.
    + intros H0. lia.
  - split_and!.
    + intros d x Hin. apply list_elem_of_singleton in Hin. discriminate Hin.
    + intros c x Hin. apply list_elem_of_singleton in Hin.
      injection Hin as -> _. reflexivity.
    + reflexivity.
Qed.

(** Witness for X3: the gate of a new unit on the simulated bus. *)
Lemma gate_delay_bounded_witness :
  0 <= LEDdelay (new 65 Wire 990) < 4294967296 /\
  exists w', addDelayIfNeeded Sim.handler (new 65 Wire 990) Fixture.encoder_bus
               = Some (tt, new 65 Wire 990, w').
Proof.
  assert (H : 0 <= LEDdelay (new 65 Wire 990) < 4294967296) by (cbn; lia).
  split; [exact H|].
  destruct (gate_delay_bounded Sim.handler (new 65 Wire 990) Fixture.encoder_bus H)
    as (now & r & w' & Hrun & _).
  exists w'. exact Hrun.
Defined.

(** X4.  After [setAddress newAddr] the next register read is addressed
    to [newAddr] on the same bus, whatever status the address write
    returned. *)
Theorem setAddress_redirects_next_read {S} (env : Env S) (newAddr reg n : Z)
    (value : list Z) (u : t) (w : World S) :
  (Z.to_nat n <= length value)%nat ->
  exists u1 w1 res u2 w2 now r rb rw re rest,
    setAddress env newAddr u w = Some (tt, u1, w1) /\
    readBytes env reg value n u1 w1 = Some (res, u2, w2) /\
    trace w2 = trace w1 ++ gate u1 now r ++
      [(BeginTransmission (wire u) newAddr, rb); (WireWrite (wire u) reg, rw);
       (EndTransmission (wire u), re)] ++ rest /\
    addr u2 = newAddr.
Proof.
  intros Hn.
  destruct (UnitFacts.writeBytes_spec env 255 1 [newAddr] u w ltac:(cbn; lia))
    as (now0 & r0 & rb0 & rw0 & rv0 & re0 & w1 & Hrun & _).
  set (u1 := set_addr newAddr (set_endError (u8 re0) u)).
  destruct (UnitFacts.readBytes_gated env reg n value u1 w1 Hn)
    as (res & u2 & w2 & seg & Hrun2 & Htr & (now & r & rb & rw & re & tail & -> & _)
        & (Ha & _)).
  exists u1, w1, res, u2, w2, now, r, rb, rw, re, tail.
  split.
  { unfold setAddress. rewrite (bind_step _ _ _ _ _ _ _ Hrun). reflexivity. }
  split; [exact Hrun2|]. split; [exact Htr|]. rewrite Ha. reflexivity.
Qed.

(** Witness for X4: the encoder unit is told address 0x42 and then reads
    register 0. *)
Lemma setAddress_redirects_next_read_witness :
  (Z.to_nat 1 <= length [0])%nat /\
  exists u1 w1,
    setAddress Sim.handler 66 (M5w_8encoder.unit Fixture.encoder) Fixture.encoder_bus
      = Some (tt, u1, w1).
Proof.
  assert (H : (Z.to_nat 1 <= length [0])%nat) by (cbn; lia).
  split; [exact H|].
  destruct (setAddress_redirects_next_read Sim.handler 66 0 1 [0]
              (M5w_8encoder.unit Fixture.encoder) Fixture.encoder_bus H)
    as (u1 & w1 & _ & _ & _ & _ & _ & _ & _ & _ & _ & Hrun & _).
  exists u1, w1. exact Hrun.
Defined.

End TransportFacts.

(** ** Counters, buttons and LEDs of the encoder unit *)

Module EncoderMore.
Import M5w_8encoder ResetFrame Obs.

Lemma le_val_le_bytes4 (z : Z) :
  le_val (map u8 (le_bytes 4 z)) = z mod 4294967296.
Proof.
  cbn [le_bytes map le_val]. unfold u8. rewrite !Z.mod_mod by lia.
  pose proof (Z.div_mod z 256 ltac:(lia)) as H0.
  pose proof (Z.div_mod (z / 256) 256 ltac:(lia)) as H1.
  pose proof (Z.div_mod (z / 256 / 256) 256 ltac:(lia)) as H2.
  pose proof (Z.div_mod (z / 256 / 256 / 256) 256 ltac:(lia)) as H3.
  pose proof (Z.mod_pos_bound z 256 ltac:(lia)).
  pose proof (Z.mod_pos_bound (z / 256) 256 ltac:(lia)).
  pose proof (Z.mod_pos_bound (z / 256 / 256) 256 ltac:(lia)).
  pose proof (Z.mod_pos_bound (z / 256 / 256 / 256) 256 ltac:(lia)).
  apply Z.mod_unique with (q := z / 256 / 256 / 256 / 256); lia.
Qed.

Lemma s32_u32 (z : Z) : -2147483648 <= z < 2147483648 -> s32 (z mod 4294967296) = z.
Proof.
  intros Hz. unfold s32. rewrite Zplus_mod_idemp_l.
  rewrite Z.mod_small by lia. lia.
Qed.

Lemma reads_inj (l1 : list Z) : forall l2, reads l1 = reads l2 -> l1 = l2.
Proof.
  induction l1 as [|a l1 IH]; intros [|b l2] H; try discriminate H; [reflexivity|].
  cbn in H. injection H as -> H. f_equal. exact (IH _ H).
Qed.

(** X5.  When the four bytes read by [getLong] are the little-endian
    two's-complement image of a 32-bit signed value [z], [getLong] returns
    [z] (for a unit on the default bus): counters and increments arrive
    unchanged over their whole range. *)
Theorem getLong_returns_transmitted_value {S} (env : Env S) (indet reg z : Z)
    (u : M5w_Unit.t) (w : World S) (res : Z * list Z) (u' : M5w_Unit.t)
    (w' : World S) (pre : list Event) :
  M5w_Unit.wire u = Wire ->
  -2147483648 <= z < 2147483648 ->
  M5w_Unit.readBytes env reg (le_bytes 4 indet) 4 u w = Some (res, u', w') ->
  trace w' = trace w ++ pre ++ reads (le_bytes 4 z) ->
  M5w_Unit.getLong env indet reg u w = Some (z, u', w').
Proof.
  intros Hw Hz Hread Htrace.
  destruct (UnitFacts.readBytes_spec env reg 4 (le_bytes 4 indet) u w ltac:(cbn; lia))
    as (now & r & res0 & u0 & w0 & evs & Hrun & Htr & Hout).
  rewrite Hread in Hrun. injection Hrun as <- <- <-.
  rewrite Htr in Htrace. apply app_inv_head in Htrace.
  unfold M5w_Unit.getLong. rewrite (bind_step _ _ _ _ _ _ _ Hread).
  assert (Hlast : forall (l1 l2 : list Event) c x,
            l1 ++ l2 ++ [(c, x)] = pre ++ reads (le_bytes 4 z) -> c = WireRead Wire).
  { intros l1 l2 c x H. cbn [le_bytes reads map] in H.
    change [(WireRead Wire, z mod 256); (WireRead Wire, z / 256 mod 256);
            (WireRead Wire, z / 256 / 256 mod 256);
            (WireRead Wire, z / 256 / 256 / 256 mod 256)]
      with ([(WireRead Wire, z mod 256); (WireRead Wire, z / 256 mod 256);
             (WireRead Wire, z / 256 / 256 mod 256)] ++
            [(WireRead Wire, z / 256 / 256 / 256 mod 256)]) in H.
    rewrite !app_assoc in H. apply app_inj_tail in H as [_ H].
    injection H as -> _. reflexivity. }
  inversion Hout as [rb rw re He | rb rw re rq He Hq | rb rw re rq rs He Hq Hrs]; subst.
  - exfalso. unfold address_frame in Htrace.
    change [(BeginTransmission (M5w_Unit.wire u) (M5w_Unit.addr u), rb);
            (WireWrite (M5w_Unit.wire u) reg, rw);
            (EndTransmission (M5w_Unit.wire u), re)]
      with ([(BeginTransmission (M5w_Unit.wire u) (M5w_Unit.addr u), rb);
             (WireWrite (M5w_Unit.wire u) reg, rw)] ++
            [(EndTransmission (M5w_Unit.wire u), re)]) in Htrace.
    apply Hlast in Htrace. discriminate Htrace.
  - exfalso. apply Hlast in Htrace. discriminate Htrace.
  - change ((RequestFrom (M5w_Unit.wire u) (M5w_Unit.addr u) 4, rq) :: reads rs)
      with ([(RequestFrom (M5w_Unit.wire u) (M5w_Unit.addr u) 4, rq)] ++ reads rs)
      in Htrace.
    rewrite !app_assoc in Htrace.
    apply app_inj_2 in Htrace as [_ Hrs'];
      [|unfold reads; rewrite !length_map; rewrite Hrs; reflexivity].
    apply reads_inj in Hrs'. subst rs.
    cbn [fst snd Z.eqb negb].
    change (drop (Z.to_nat 4) (le_bytes 4 indet)) with (@nil Z).
    rewrite app_nil_r, le_val_le_bytes4, s32_u32 by exact Hz. reflexivity.
Qed.

(** Witness for X5: counter 1 of the simulated encoder holds -2. *)
Lemma getLong_returns_transmitted_value_witness :
  result (M5w_Unit.getLong Sim.handler 0 4 (unit Fixture.encoder) Fixture2.counting_bus)
    = Some (-2).
Proof.
  erewrite (getLong_returns_transmitted_value Sim.handler 0 4 (-2)
              (unit Fixture.encoder) Fixture2.counting_bus);
    [reflexivity | reflexivity | lia | vm_compute; reflexivity |].
  instantiate (1 := [(Micros, 1000); (BeginTransmission Wire 65, 0);
                     (WireWrite Wire 4, 1); (EndTransmission Wire, 0);
                     (RequestFrom Wire 65 4, 4)]).
  vm_compute. reflexivity.
Defined.

(** X6.  [getButton ch] for a channel [ch >= 0] makes one read of
    register [0x50 + ch] and returns 1 when the read has status 0 and the
    byte is 0 (pressed), and 0 otherwise: a failed read, whose sentinel
    0xAA is not 0, reports the button as released. *)
Theorem getButton_single_channel {S} (env : Env S) (indet ch : Z) (e : t)
    (w : World S) :
  0 <= ch <= 127 ->
  exists st buf u' w',
    M5w_Unit.readBytes env (80 + ch) (le_bytes 1 indet) 1 (unit e) w
      = Some ((st, buf), u', w') /\
    getButton env indet ch e w =
      Some (if (st =? 0) && (le_val buf =? 0) then 1 else 0,
            mk u' (encValues e), w').
Proof.
  intros Hch.
  destruct (UnitFacts.readBytes_spec env (80 + ch) 1 (le_bytes 1 indet) (unit e) w
              ltac:(cbn; lia))
    as (now & r & [st buf] & u' & w' & evs & Hrun & _ & _).
  exists st, buf, u', w'. split; [exact Hrun|].
  unfold getButton. destruct (Z.geb_spec ch 0); [|lia].
  replace (u8 (80 + ch)) with (80 + ch) by (unfold u8; rewrite Z.mod_small; lia).
  assert (Hbyte : M5w_Unit.getByte env indet (80 + ch) (unit e) w
                  = Some (if negb (st =? 0) then 170 else le_val buf, u', w')).
  { unfold M5w_Unit.getByte. rewrite (bind_step _ _ _ _ _ _ _ Hrun). cbn [fst snd].
    destruct (negb (st =? 0)); reflexivity. }
  mstep (lift_step unit (fun u e => mk u (encValues e)) _ _ _ _ _ _ Hbyte).
  unfold pure. destruct (st =? 0); cbn [negb andb]; reflexivity.
Qed.

(** Witness for X6: button 2 of the simulated encoder is pressed. *)
Lemma getButton_single_channel_witness :
  0 <= 2 <= 127 /\
  result (getButton Sim.handler 0 2 Fixture.encoder Fixture2.counting_bus) = Some 1.
Proof.
  assert (H : 0 <= 2 <= 127) by lia.
  split; [exact H|].
  destruct (getButton_single_channel Sim.handler 0 2 Fixture.encoder
              Fixture2.counting_bus H) as (st & buf & u' & w' & Hread & Hrun).
  rewrite Hrun. vm_compute in Hread. injection Hread as <- <- _ _. reflexivity.
Defined.

(** [resetCounts] on a positive 8-bit mask, by its loops. *)
Lemma resetCounts_pos {S} (env : Env S) (indet : Z) (fuel : nat) (p : positive)
    (e : t) (w : World S) :
  (9 <= fuel)%nat -> Zpos p < 256 ->
  exists now r rb rw rv re w',
    resetCounts env indet fuel (Zpos p) e w =
      Some (tt, mk (M5w_Unit.set_endError (u8 re) (unit e)) (encValues e), w') /\
    trace w' = trace w ++ gate (unit e) now r ++
      [(BeginTransmission (M5w_Unit.wire (unit e)) (M5w_Unit.addr (unit e)), rb);
       (WireWrite (M5w_Unit.wire (unit e)) (64 + ctz_pos p), rw);
       (WireWriteBuf (M5w_Unit.wire (unit e)) (bits_pos (strip p)), rv);
       (EndTransmission (M5w_Unit.wire (unit e)), re)].
Proof.
  intros Hfuel Hp.
  pose proof (EncoderFacts.size_nat_bound p 8 ltac:(cbn; lia)) as Hsz.
  pose proof (EncoderFacts.ctz_pos_bound p) as Hctz.
  pose proof (EncoderFacts.strip_size p) as Hstrip.
  unfold resetCounts. change (negb (Z.pos p =? 0)) with true. cbv iota.
  rewrite (EncoderFacts.find_start_pos p fuel 64) by lia.
  rewrite EncoderFacts.shiftr_ctz.
  change 0 with (Z.of_nat 0) at 1.
  rewrite (EncoderFacts.set_flags_pos (strip p) fuel (replicate 8 (u8 indet)) 0)
    by (rewrite ?length_replicate; lia).
  cbn [take app Nat.add].
  remember (bits_pos (strip p) ++
            drop (Pos.size_nat (strip p)) (replicate 8 (u8 indet))) as chList eqn:Hch.
  assert (Hlen : (Z.to_nat (Z.of_nat (Pos.size_nat (strip p))) <= length chList)%nat).
  { rewrite Hch, length_app, EncoderFacts.bits_pos_length. lia. }
  destruct (UnitFacts.writeBytes_spec env (64 + ctz_pos p)
              (Z.of_nat (Pos.size_nat (strip p))) chList (unit e) w Hlen)
    as (now & r & rb & rw & rv & re & w' & Hrun & Htr).
  assert (Htake : take (Z.to_nat (Z.of_nat (Pos.size_nat (strip p)))) chList
                  = bits_pos (strip p)).
  { rewrite Hch, Nat2Z.id.
    rewrite take_app_length' by (symmetry; apply EncoderFacts.bits_pos_length).
    reflexivity. }
  rewrite Htake in Htr.
  exists now, r, rb, rw, rv, re, w'.
  split; [apply (lift_step unit (fun u e => mk u (encValues e)) _ _ _ _ _ _ Hrun)|].
  exact Htr.
Qed.

(** X7.  [resetCount ch] for a channel 0..7 is one framed write of the
    single byte 1 at register [0x40 + ch], and changes nothing of the unit
    but [endError]; for a channel 8..31 the mask [1<<ch] converts to the
    8-bit value 0 and the call does nothing at all. *)
Theorem resetCount_single_channel {S} (env : Env S) (indet : Z) (fuel : nat)
    (ch : Z) (e : t) (w : World S) :
  (9 <= fuel)%nat ->
  (0 <= ch < 8 ->
     exists now r rb rw rv re w',
       resetCount env indet fuel ch e w =
         Some (tt, mk (M5w_Unit.set_endError (u8 re) (unit e)) (encValues e), w') /\
       trace w' = trace w ++ gate (unit e) now r ++
         [(BeginTransmission (M5w_Unit.wire (unit e)) (M5w_Unit.addr (unit e)), rb);
          (WireWrite (M5w_Unit.wire (unit e)) (64 + ch), rw);
          (WireWriteBuf (M5w_Unit.wire (unit e)) [1], rv);
          (EndTransmission (M5w_Unit.wire (unit e)), re)]) /\
  (8 <= ch < 32 -> resetCount env indet fuel ch e w = Some (tt, e, w)).
Proof.
  intros Hfuel. split.
  - intros Hch. unfold resetCount.
    destruct (Z.leb_spec 0 ch); [|lia]. destruct (Z.ltb_spec ch 32); [|lia].
    cbn [andb].
    assert (Hcases : ch = 0 \/ ch = 1 \/ ch = 2 \/ ch = 3 \/
                     ch = 4 \/ ch = 5 \/ ch = 6 \/ ch = 7) by lia.
    destruct Hcases as [->|[->|[->|[->|[->|[->|[->| ->]]]]]]];
      match goal with
      | |- context [resetCounts env indet fuel (u8 (Z.shiftl 1 ?c))] =>
          let m := eval vm_compute in (u8 (Z.shiftl 1 c)) in
          change (u8 (Z.shiftl 1 c)) with m
      end;
      match goal with
      | |- context [resetCounts env indet fuel (Zpos ?p)] =>
          destruct (resetCounts_pos env indet fuel p e w Hfuel ltac:(lia))
            as (now & r & rb & rw & rv & re & w' & Hrun & Htr);
          exists now, r, rb, rw, rv, re, w'; split; [exact Hrun|exact Htr]
      end.
  - intros Hch. unfold resetCount.
    destruct (Z.leb_spec 0 ch); [|lia]. destruct (Z.ltb_spec ch 32); [|lia].
    cbn [andb].
    assert (Hz : u8 (Z.shiftl 1 ch) = 0).
    { unfold u8. rewrite Z.shiftl_1_l.
      replace ch with (8 + (ch - 8)) by lia.
      rewrite Z.pow_add_r by lia. change (2 ^ 8) with 256.
      rewrite Z.mul_comm. apply Z.mod_mul. lia. }
    rewrite Hz. reflexivity.
Qed.

(** Witness for X7: counter 3 of the simulated encoder is reset. *)
Lemma resetCount_single_channel_witness :
  (9 <= 9)%nat /\
  bus_calls (events (resetCount Sim.handler 0 9 3 Fixture.encoder Fixture.encoder_bus))
    = write_frame (unit Fixture.encoder) 67 [1].
Proof.
  assert (Hf : (9 <= 9)%nat) by lia.
  split; [exact Hf|].
  destruct (proj1 (resetCount_single_channel Sim.handler 0 9 3 Fixture.encoder
                     Fixture.encoder_bus Hf) ltac:(lia))
    as (now & r & rb & rw & rv & re & w' & Hrun & Htr).
  rewrite Hrun. cbn [events]. rewrite Htr.
  cbn [Fixture.encoder_bus Sim.world trace app].
  rewrite UnitFacts.bus_calls_app, UnitFacts.bus_calls_gate. reflexivity.
Defined.

End EncoderMore.

(** ** The colour bytes of an LED write *)

Module LedFacts.
Import Obs.

Lemma writeBytes_prefix {S} (env : Env S) (reg n : Z) (v1 v2 : list Z) :
  length v1 = length v2 ->
  take (Z.to_nat n) v1 = take (Z.to_nat n) v2 ->
  M5w_Unit.writeBytes env reg v1 n = M5w_Unit.writeBytes env reg v2 n.
Proof. intros Hl Ht. unfold M5w_Unit.writeBytes. rewrite Hl, Ht. reflexivity. Qed.

Lemma low_bytes_add (c k : Z) :
  take 3 (le_bytes 4 (c + k * 16777216)) = take 3 (le_bytes 4 c).
Proof.
  cbn [le_bytes take].
  assert (H0 : (c + k * 16777216) mod 256 = c mod 256).
  { replace (k * 16777216) with (k * 65536 * 256) by lia. apply Z.mod_add. lia. }
  assert (D0 : (c + k * 16777216) / 256 = c / 256 + k * 65536).
  { replace (k * 16777216) with (k * 65536 * 256) by lia. apply Z.div_add. lia. }
  assert (H1 : (c / 256 + k * 65536) mod 256 = (c / 256) mod 256).
  { replace (k * 65536) with (k * 256 * 256) by lia. apply Z.mod_add. lia. }
  assert (D1 : (c / 256 + k * 65536) / 256 = c / 256 / 256 + k * 256).
  { replace (k * 65536) with (k * 256 * 256) by lia. apply Z.div_add. lia. }
  assert (H2 : (c / 256 / 256 + k * 256) mod 256 = (c / 256 / 256) mod 256).
  { apply Z.mod_add. lia. }
  rewrite H0, D0, H1, D1, H2. reflexivity.
Qed.

(** X8.  The encoder's [writeLED] sends the three low bytes of [colour],
    least significant first, at register [0x70 + 3*led] and stamps
    [lastLEDtime]; bits 24..31 of [colour] have no effect on what the call
    does.  The angle unit's [writeLED] sends all four bytes at register
    [0x30 + 4*led], and they determine the 32-bit colour. *)
Theorem writeLED_colour_bytes {S} (env : Env S) (led colour : Z) :
  (forall (e : M5w_8encoder.t) (w : World S),
     (0 <= led <= 8 ->
      exists now r rb rw rv re stamp e' w',
        M5w_8encoder.writeLED env led colour e w = Some (tt, e', w') /\
        trace w' = trace w ++
          led_write (M5w_8encoder.unit e) (112 + 3 * led)
            [colour mod 256; colour / 256 mod 256; colour / 65536 mod 256]
            now r rb rw rv re stamp) /\
     (forall k, M5w_8encoder.writeLED env led (colour + k * 16777216) e w
                = M5w_8encoder.writeLED env led colour e w)) /\
  (forall (a : M5w_8angle.t) (w : World S),
     0 <= led <= 8 ->
     exists now r rb rw rv re stamp a' w' payload,
       M5w_8angle.writeLED env led colour a w = Some (tt, a', w') /\
       trace w' = trace w ++
         led_write (M5w_8angle.unit a) (48 + 4 * led) payload
           now r rb rw rv re stamp /\
       length payload = 4%nat /\
       le_val payload = colour mod 4294967296).
Proof.
  split.
  - intros e w. split.
    + intros Hled.
      destruct (TimingFacts.encoder_writeLED_spec env led colour e w)
        as (now & r & rb & rw & rv & re & stamp & e' & w' & Hrun & Htr & _).
      exists now, r, rb, rw, rv, re, stamp, e', w'. split; [exact Hrun|].
      rewrite Htr.
      replace (u8 (led * 3 + 112)) with (112 + 3 * led)
        by (unfold u8; rewrite Z.mod_small; lia).
      cbn [le_bytes]. rewrite Z.div_div by lia. reflexivity.
    + intros k. unfold M5w_8encoder.writeLED.
      rewrite (writeBytes_prefix env (u8 (led * 3 + 112)) 3
                 (le_bytes 4 (colour + k * 16777216)) (le_bytes 4 colour));
        [reflexivity | reflexivity | apply low_bytes_add].
  - intros a w Hled.
    destruct (TimingFacts.angle_writeLED_spec env led colour a w)
      as (now & r & rb & rw & rv & re & stamp & a' & w' & Hrun & Htr & _).
    exists now, r, rb, rw, rv, re, stamp, a', w', (le_bytes 4 colour).
    split; [exact Hrun|].
    replace (u8 (led * 4 + 48)) with (48 + 4 * led) in Htr
      by (unfold u8; rewrite Z.mod_small; lia).
    split; [exact Htr|]. split; [reflexivity|].
    rewrite <- EncoderMore.le_val_le_bytes4. f_equal.
    cbn [le_bytes map]. unfold u8. rewrite !Z.mod_mod by lia. reflexivity.
Qed.

(** Witness for X8: LED 1 of the simulated encoder is written. *)
Lemma writeLED_colour_bytes_witness :
  0 <= 1 <= 8 /\
  exists e' w',
    M5w_8encoder.writeLED Sim.handler 1 1122867 Fixture.encoder Fixture.encoder_bus
      = Some (tt, e', w').
Proof.
  assert (H : 0 <= 1 <= 8) by lia.
  split; [exact H|].
  destruct (proj1 (proj1 (writeLED_colour_bytes Sim.handler 1 1122867)
                     Fixture.encoder Fixture.encoder_bus) H)
    as (now & r & rb & rw & rv & re & stamp & e' & w' & Hrun & _).
  exists e', w'. exact Hrun.
Defined.

End LedFacts.

(** ** Hooks and stored values of the potentiometer unit *)

Module HookFacts.
Import M5w_8angle HookTable Polling Obs.

Lemma channel_other (u : M5w_Unit.t) (ps : list Z) (hs : list hook) (ch ch' : Z)
    (h : hook) (x : Z) (a : t) :
  0 <= ch -> 0 <= ch' -> ch' <> ch ->
  potValues a = ps -> hooks a = hs ->
  channel (mk u (<[Z.to_nat ch := x]> ps) (<[Z.to_nat ch := h]> hs)) ch'
    = channel a ch'.
Proof.
  intros Hch Hch' Hne <- <-. unfold channel. cbn [hooks potValues].
  rewrite !list_lookup_insert_ne by lia. reflexivity.
Qed.

(** X9.  The hook operations need no bus call and compose as follows on
    a well-formed unit: after [setHook ch s] the channel reports hooking
    and [getLast] returns [s]; [clearHook] then ends the hook and keeps the
    stored value [s]; neither touches another channel; a new unit has no
    channel hooked. *)
Theorem hook_operations_compose {S} (ch s : Z) (a : t) (w : World S) :
  wf a -> 0 <= ch < 8 ->
  exists a1 a2,
    setHook ch s a w = Some (tt, a1, w) /\
    isHooking ch a1 w = Some (true, a1, w) /\
    getLast ch a1 w = Some (s, a1, w) /\
    clearHook ch a1 w = Some (tt, a2, w) /\
    isHooking ch a2 w = Some (false, a2, w) /\
    getLast ch a2 w = Some (s, a2, w) /\
    wf a1 /\ wf a2 /\ unit a1 = unit a /\ unit a2 = unit a /\
    (forall ch', 0 <= ch' -> ch' <> ch ->
       channel a1 ch' = channel a ch' /\ channel a2 ch' = channel a ch') /\
    (forall ad bus junk,
       isHooking ch (new ad bus junk) w = Some (false, new ad bus junk, w)).
Proof.
  intros [Hlp Hlh] Hch. unfold POT_COUNT in *.
  assert (Hp : (Z.to_nat ch < length (potValues a))%nat) by lia.
  assert (Hh : (Z.to_nat ch < length (hooks a))%nat) by lia.
  set (a1 := mk (unit a) (<[Z.to_nat ch := s]> (potValues a))
                (<[Z.to_nat ch := hooking]> (hooks a))).
  set (a2 := mk (unit a) (<[Z.to_nat ch := s]> (potValues a))
                (<[Z.to_nat ch := unhooked]> (hooks a))).
  exists a1, a2.
  assert (Hget : forall (b : t) (x : hook),
            hooks b !! Z.to_nat ch = Some x ->
            isHooking ch b w =
              Some (match x with unhooked => false | _ => true end, b, w)).
  { intros b x Hx. unfold isHooking.
    mstep (AngleFacts.hook_get_ok ch x b w ltac:(lia) Hx). reflexivity. }
  split_and!.
  - unfold setHook.
    mstep (AngleFacts.hook_set_ok ch hooking a w ltac:(lia) Hh).
    apply AngleFacts.pot_set_ok; [lia|exact Hp].
  - apply (Hget a1 hooking). cbn. apply list_lookup_insert_eq. exact Hh.
  - apply AngleFacts.pot_get_ok; [lia|]. cbn. apply list_lookup_insert_eq. exact Hp.
  - unfold clearHook.
    rewrite (AngleFacts.hook_set_ok ch unhooked a1 w ltac:(lia))
      by (cbn; rewrite length_insert; exact Hh).
    cbn [unit potValues hooks a1]. rewrite list_insert_insert_eq. reflexivity.
  - apply (Hget a2 unhooked). cbn. apply list_lookup_insert_eq. exact Hh.
  - apply AngleFacts.pot_get_ok; [lia|]. cbn. apply list_lookup_insert_eq. exact Hp.
  - split; cbn; rewrite length_insert; assumption.
  - split; cbn; rewrite length_insert; assumption.
  - reflexivity.
  - reflexivity.
  - intros ch' Hch' Hne. split; apply (channel_other _ _ _ ch ch' _ _ a); done || lia.
  - intros ad bus junk. apply (Hget (new ad bus junk) unhooked).
    unfold new. cbn [hooks]. apply lookup_replicate_2. unfold POT_COUNT. lia.
Qed.

(** Witness for X9: channel 3 of a new angle unit. *)
Lemma hook_operations_compose_witness :
  wf Fixture.angle /\ 0 <= 3 < 8 /\
  exists a1, setHook 3 2000 Fixture.angle Fixture.angle_bus
               = Some (tt, a1, Fixture.angle_bus) /\
             isHooking 3 a1 Fixture.angle_bus = Some (true, a1, Fixture.angle_bus).
Proof.
  assert (Hwf : wf Fixture.angle) by (split; reflexivity).
  assert (Hch : 0 <= 3 < 8) by lia.
  split; [exact Hwf|]. split; [exact Hch|].
  destruct (hook_operations_compose 3 2000 Fixture.angle Fixture.angle_bus Hwf Hch)
    as (a1 & a2 & Hset & Hhk & _).
  exists a1. split; [exact Hset|exact Hhk].
Defined.

(** X10.  A hooked channel keeps returning the hook value: starting
    from a channel that is hooking at [s], or already on one side of [s],
    any number of consecutive [getPot16] calls whose reads fail or decode
    to values on that side of [s] all return [s], and the channel stays
    hooked with [s] stored. *)
Theorem hooked_channel_returns_hook_value {S} (env : Env S) (ch s : Z)
    (below : bool) (a : t) (w : World S) (xs : list Z) (a' : t) (w' : World S)
    (h : hook) :
  0 <= ch ->
  channel a ch = Some (h, s) ->
  h = hooking \/ h = side below ->
  polls env ch s below a w xs a' w' ->
  Forall (fun x => x = s) xs /\
  exists h', channel a' ch = Some (h', s) /\ (h' = hooking \/ h' = side below).
Proof.
  intros Hch Hc Hh Hpolls. revert h Hc Hh.
  induction Hpolls as [a w|a w x a1 w1 xs a2 w2 Hq Hrun _ IH]; intros h Hc Hh.
  - split; [constructor|]. exists h. done.
  - destruct (AngleFacts.channel_lookup _ _ _ _ Hc) as [Hhk Hs].
    pose proof (lookup_lt_Some _ _ _ Hs) as Hlp.
    pose proof (lookup_lt_Some _ _ _ Hhk) as Hlh.
    destruct (AngleFacts.getPot16_spec env ch s h a w Hch Hs Hhk)
      as (now & r & st & buf & u' & w0 & evs & Hread & _ & _ & _ & Hget).
    destruct Hq as (st' & buf' & u'' & w'' & Hread' & Hside).
    rewrite Hread in Hread'. injection Hread' as <- <- <- <-.
    rewrite Hrun in Hget. injection Hget as -> -> ->.
    set (hx := if st =? 0 then after_read h (decode (le_val buf)) s else (h, s)) in *.
    assert (Hhx : hx.2 = s /\ (hx.1 = hooking \/ hx.1 = side below)).
    { subst hx. destruct (Z.eqb_spec st 0) as [->|Hne]; [|done].
      destruct Hside as [Hst|Hside]; [done|].
      unfold after_read, hook_rule, side in *.
      destruct below, Hh as [->| ->]; cbn [fst snd].
      - destruct (Z.ltb_spec (decode (le_val buf)) s); [|lia]. cbn. auto.
      - destruct (Z.geb_spec (decode (le_val buf)) s); [lia|]. cbn. auto.
      - destruct (Z.ltb_spec (decode (le_val buf)) s); [lia|].
        destruct (Z.gtb_spec (decode (le_val buf)) s); [|lia]. cbn. auto.
      - destruct (Z.leb_spec (decode (le_val buf)) s); [lia|]. cbn. auto. }
    destruct Hhx as [Hx2 Hx1].
    destruct (IH (hx.1)) as [Hall Hfin].
    + rewrite Hx2. apply AngleFacts.channel_insert; assumption.
    + exact Hx1.
    + split; [constructor; [exact Hx2|exact Hall]|exact Hfin].
Qed.

(** Witness for X10: two polls of the simulated channel 3, hooked at 2000
    while the control stands at 3836. *)
Lemma hooked_channel_returns_hook_value_witness :
  exists a' w',
    polls Sim.handler 3 2000 false Fixture.angle_hooked Fixture.angle_bus
      [2000; 2000] a' w' /\
    exists h', channel a' 3 = Some (h', 2000).
Proof.
  assert (Hrun : exists a' w',
            polls Sim.handler 3 2000 false Fixture.angle_hooked Fixture.angle_bus
              [2000; 2000] a' w').
  { eexists _, _.
    eapply polls_cons.
    - eexists _, _, _, _. split; [vm_compute; reflexivity|].
      right. vm_compute. reflexivity.
    - vm_compute. reflexivity.
    - eapply polls_cons.
      + eexists _, _, _, _. split; [vm_compute; reflexivity|].
        right. vm_compute. reflexivity.
      + vm_compute. reflexivity.
      + apply polls_nil. }
  destruct Hrun as (a' & w' & Hpolls).
  exists a', w'. split; [exact Hpolls|].
  destruct (hooked_channel_returns_hook_value Sim.handler 3 2000 false
              Fixture.angle_hooked Fixture.angle_bus [2000; 2000] a' w' hooking
              ltac:(lia) eq_refl (or_introl eq_refl) Hpolls)
    as (_ & h' & Hc & _).
  exists h'. exact Hc.
Defined.

(** X11.  [getPot16 ch] keeps the unit well formed and keeps every
    stored value in 0..POTMAX when they were so before; the value it
    returns is then in that range; whatever it does to channel [ch], the
    state and stored value of every other channel are as before. *)
Theorem getPot16_keeps_range {S} (env : Env S) (ch s : Z) (h : hook) (a : t)
    (w : World S) :
  0 <= ch ->
  channel a ch = Some (h, s) ->
  exists x a' w',
    getPot16 env ch a w = Some (x, a', w') /\
    (wf a -> wf a') /\
    (Forall (fun v => 0 <= v <= POTMAX) (potValues a) ->
       0 <= x <= POTMAX /\ Forall (fun v => 0 <= v <= POTMAX) (potValues a')) /\
    (forall ch', 0 <= ch' -> ch' <> ch -> channel a' ch' = channel a ch').
Proof.
  intros Hch Hc. destruct (AngleFacts.channel_lookup _ _ _ _ Hc) as [Hhk Hs].
  destruct (AngleFacts.getPot16_spec env ch s h a w Hch Hs Hhk)
    as (now & r & st & buf & u' & w' & evs & _ & _ & _ & Hraw & Hget).
  eexists _, _, w'. split; [exact Hget|]. split_and!.
  - intros [Hp Hh]. split; cbn; rewrite length_insert; assumption.
  - intros Hall.
    assert (Hs_range : 0 <= s <= POTMAX).
    { rewrite Forall_lookup in Hall. exact (Hall _ _ Hs). }
    assert (Hdec : 0 <= decode (le_val buf) <= POTMAX).
    { unfold decode, POTMAX in *.
      destruct (Z.gtb_spec (le_val buf) 4092); lia. }
    match goal with |- 0 <= ?x <= _ /\ _ => assert (Hx : 0 <= x <= POTMAX) end.
    { destruct (st =? 0); [|exact Hs_range].
      unfold after_read. cbn [snd]. destruct (hook_rule _ _ _).2; assumption. }
    split; [exact Hx|]. cbn [potValues]. apply Forall_insert; assumption.
  - intros ch' Hch' Hne. apply (channel_other _ _ _ ch ch' _ _ a); done || lia.
Qed.

(** Witness for X11: channel 3 of the simulated angle unit. *)
Lemma getPot16_keeps_range_witness :
  0 <= 3 /\
  exists x a' w',
    getPot16 Sim.handler 3 Fixture.angle Fixture.angle_bus = Some (x, a', w') /\
    0 <= x <= POTMAX.
Proof.
  assert (Hch : 0 <= 3) by lia.
  split; [exact Hch|].
  destruct (getPot16_keeps_range Sim.handler 3 0 unhooked Fixture.angle
              Fixture.angle_bus Hch eq_refl)
    as (x & a' & w' & Hrun & _ & Hrange & _).
  exists x, a', w'. split; [exact Hrun|].
  apply Hrange. unfold Fixture.angle, new. cbn [potValues].
  apply Forall_replicate. unfold POTMAX. lia.
Defined.

End HookFacts.

(** ** Bounds of the reset frame and of the gate *)

Module BoundFacts.
Import ResetFrame Obs.

Lemma bits_pos_binary (p : positive) : Forall (fun b => b = 0 \/ b = 1) (bits_pos p).
Proof.
  induction p; cbn [bits_pos]; repeat (constructor; try tauto); assumption.
Qed.

Lemma bits_pos_last (p : positive) : exists l, bits_pos p = l ++ [1].
Proof.
  induction p as [q [l IH]|q [l IH]|]; cbn [bits_pos].
  - exists (1 :: l). rewrite IH. reflexivity.
  - exists (0 :: l). rewrite IH. reflexivity.
  - exists []. reflexivity.
Qed.

Lemma bits_strip_head (p : positive) : exists l, bits_pos (strip p) = 1 :: l.
Proof.
  induction p as [q IH|q IH|]; cbn [strip bits_pos]; [eauto|exact IH|eauto].
Qed.

(** X12.  For every non-zero 8-bit mask the frame of [resetCounts]
    stays inside the eight reset registers 0x40..0x47: its start register
    is at least 0x40 and start plus payload length is at most 0x48; the
    payload has 1 to 8 bytes, each 0 or 1, and begins and ends with 1.
    Only [endError] of the unit changes. *)
Theorem resetCounts_stays_in_reset_region {S} (env : Env S) (indet : Z)
    (fuel : nat) (mask : Z) (e : M5w_8encoder.t) (w : World S) :
  (9 <= fuel)%nat -> 0 < mask < 256 ->
  exists now r rb rw rv re reg payload w',
    M5w_8encoder.resetCounts env indet fuel mask e w =
      Some (tt,
            M5w_8encoder.mk (M5w_Unit.set_endError (u8 re) (M5w_8encoder.unit e))
              (M5w_8encoder.encValues e),
            w') /\
    trace w' = trace w ++ gate (M5w_8encoder.unit e) now r ++
      [(BeginTransmission (M5w_Unit.wire (M5w_8encoder.unit e))
          (M5w_Unit.addr (M5w_8encoder.unit e)), rb);
       (WireWrite (M5w_Unit.wire (M5w_8encoder.unit e)) reg, rw);
       (WireWriteBuf (M5w_Unit.wire (M5w_8encoder.unit e)) payload, rv);
       (EndTransmission (M5w_Unit.wire (M5w_8encoder.unit e)), re)] /\
    64 <= reg /\
    reg + Z.of_nat (length payload) <= 72 /\
    (1 <= length payload <= 8)%nat /\
    Forall (fun b => b = 0 \/ b = 1) payload /\
    (exists l, payload = 1 :: l) /\ (exists l, payload = l ++ [1]).
Proof.
  intros Hfuel Hmask. destruct mask as [|p|p]; try lia.
  destruct (EncoderMore.resetCounts_pos env indet fuel p e w Hfuel ltac:(lia))
    as (now & r & rb & rw & rv & re & w' & Hrun & Htr).
  exists now, r, rb, rw, rv, re, (64 + ctz_pos p), (bits_pos (strip p)), w'.
  pose proof (EncoderFacts.size_nat_bound p 8 ltac:(cbn; lia)) as Hsz.
  pose proof (EncoderFacts.ctz_pos_bound p) as Hctz.
  pose proof (EncoderFacts.strip_size p) as Hstrip.
  pose proof (EncoderFacts.bits_pos_length (strip p)) as Hlen.
  assert (Hpos : (1 <= Pos.size_nat (strip p))%nat)
    by (destruct (strip p); cbn [Pos.size_nat]; lia).
  split_and!; try done; try lia.
  - apply bits_pos_binary.
  - apply bits_strip_head.
  - apply bits_pos_last.
Qed.

(** Witness for X12: the mask 0b10100000 on the simulated bus. *)
Lemma resetCounts_stays_in_reset_region_witness :
  (9 <= 9)%nat /\ 0 < 160 < 256 /\
  exists e' w',
    M5w_8encoder.resetCounts Sim.handler 0 9 160 Fixture.encoder Fixture.encoder_bus
      = Some (tt, e', w').
Proof.
  assert (Hf : (9 <= 9)%nat) by lia.
  assert (Hm : 0 < 160 < 256) by lia.
  split; [exact Hf|]. split; [exact Hm|].
  destruct (resetCounts_stays_in_reset_region Sim.handler 0 9 160 Fixture.encoder
              Fixture.encoder_bus Hf Hm)
    as (now & r & rb & rw & rv & re & reg & payload & w' & Hrun & _).
  eexists _, w'. exact Hrun.
Defined.

(** X13.  The gate measures elapsed time modulo 2^32, so it is right
    across a wrap of the microsecond clock: when [micros] answers the stamp
    plus [t] modulo 2^32, [addDelayIfNeeded] delays by [LEDdelay - t] if
    [t < LEDdelay] and not at all otherwise. *)
Theorem gate_survives_clock_wrap {S} (env : Env S) (u : M5w_Unit.t)
    (w : World S) (t : Z) :
  0 <= M5w_Unit.LEDdelay u < 4294967296 ->
  0 <= t < 4294967296 ->
  u32 (env Micros (dev w)).1 = u32 (M5w_Unit.lastLEDtime u + t) ->
  exists r w',
    M5w_Unit.addDelayIfNeeded env u w = Some (tt, u, w') /\
    trace w' = trace w ++
      (Micros, (env Micros (dev w)).1) ::
      (if t <? M5w_Unit.LEDdelay u
       then [(DelayMicroseconds (M5w_Unit.LEDdelay u - t), r)] else []).
Proof.
  intros Hd Ht Hnow.
  assert (Hel : u32 (u32 (env Micros (dev w)).1 - M5w_Unit.lastLEDtime u) = t).
  { rewrite Hnow. unfold u32. rewrite Zminus_mod_idemp_l.
    replace (M5w_Unit.lastLEDtime u + t - M5w_Unit.lastLEDtime u) with t by lia.
    apply Z.mod_small. lia. }
  unfold M5w_Unit.addDelayIfNeeded, M5w_Unit.micros, M5w_Unit.delayMicroseconds,
    bind, get, pure.
  rewrite call_step. cbn [fst snd]. rewrite Hel.
  destruct (Z.ltb_spec t (M5w_Unit.LEDdelay u)).
  - rewrite call_step. cbn [dev trace fst snd].
    replace (u32 (M5w_Unit.LEDdelay u - t)) with (M5w_Unit.LEDdelay u - t)
      by (unfold u32; rewrite Z.mod_small; lia).
    eexists _, _. split; [reflexivity|]. cbn [trace].
    rewrite <- app_assoc. reflexivity.
  - exists 0. eexists. split; [reflexivity|]. reflexivity.
Qed.

(** Witness for X13: the stamp lies 50 microseconds before the wrap and
    the clock reads 0. *)
Lemma gate_survives_clock_wrap_witness :
  exists r w',
    M5w_Unit.addDelayIfNeeded (Fixture.failing 2)
      (M5w_Unit.new 65 Wire 4294967246) Fixture.nowhere
    = Some (tt, M5w_Unit.new 65 Wire 4294967246, w') /\
    trace w' = [(Micros, 0); (DelayMicroseconds 30, r)].
Proof.
  destruct (gate_survives_clock_wrap (Fixture.failing 2)
              (M5w_Unit.new 65 Wire 4294967246) Fixture.nowhere 50
              ltac:(cbn; lia) ltac:(lia) eq_refl)
    as (r & w' & Hrun & Htr).
  exists r, w'. split; [exact Hrun|exact Htr].
Defined.

End BoundFacts.
